(** * GRDNS: the request dispatcher and the listener lifecycle of [main.go]

    A shallow embedding of [handleDNSRequest], [Start] and [Stop] of
    [src/main.go], together with the few definitions of the message codec
    ([github.com/miekg/dns]) and of the resolving engine ([goresolver]) that
    the dispatcher calls. *)

From stdpp Require Import base option list strings gmap.
From Stdlib Require Import ZArith.

(** ** Go's [error] values seen by the dispatcher

    [switch err] at main.go:63 compares the error returned by the engine with
    four sentinel values by identity; every other error value falls to
    [default]. *)
Inductive error : Type :=
  | ErrNoResult
  | ErrNoData
  | ErrInvalidQuery
  | ErrDNSSECValidationFailed
  | errors_New (text : string).

#[global] Instance error_eq_dec : EqDecision error.
Proof. solve_decision. Defined.

(** The sentinels are exported by the resolving engine's package. *)
Module goresolver.
Definition ErrNoResult := ErrNoResult.
Definition ErrNoData := ErrNoData.
Definition ErrInvalidQuery := ErrInvalidQuery.
Definition ErrDNSSECValidationFailed := ErrDNSSECValidationFailed.
End goresolver.

(** ** The message codec, as far as the dispatcher uses it

    main.go imports the package [github.com/miekg/dns]; its message types and
    the functions that main.go calls ([SetReply], [SetRcode],
    [ListenAndServe], [Shutdown]) are transcribed here from that package. *)
Module dns.

(** One entry of the question section ([dns.Question]). *)
Record QuestionEntry : Type := mkQuestion {
  Name : string;
  Qtype : Z;
  Qclass : Z
}.

(** A resource record; the dispatcher only moves them around. *)
Record RR : Type := mkRR {
  rr_name : string;
  rr_type : Z;
  rr_class : Z;
  rr_ttl : Z;
  rr_rdata : string
}.

(** [dns.MsgHdr]: the header without the section counts. *)
Record Header : Type := mkHeader {
  Id : Z;
  Response : bool;
  Opcode : Z;
  Authoritative : bool;
  Truncated : bool;
  RecursionDesired : bool;
  RecursionAvailable : bool;
  Zero : bool;
  AuthenticatedData : bool;
  CheckingDisabled : bool;
  Rcode : Z
}.

(** [dns.Msg]: the embedded header, the compression switch and the four
    sections.  A [nil] slice and an empty one are both the empty list. *)
Record Msg : Type := mkMsg {
  MsgHdr : Header;
  Compress : bool;
  Question : list QuestionEntry;
  Answer : list RR;
  Ns : list RR;
  Extra : list RR
}.

#[global] Instance QuestionEntry_eq_dec : EqDecision QuestionEntry.
Proof. solve_decision. Defined.
#[global] Instance RR_eq_dec : EqDecision RR.
Proof. solve_decision. Defined.
#[global] Instance Header_eq_dec : EqDecision Header.
Proof. solve_decision. Defined.
#[global] Instance Msg_eq_dec : EqDecision Msg.
Proof. solve_decision. Defined.

Definition OpcodeQuery : Z := 0.

Definition RcodeSuccess : Z := 0.
Definition RcodeFormatError : Z := 1.
Definition RcodeServerFailure : Z := 2.
Definition RcodeNameError : Z := 3.

(** Modelled from the spec: [dns.RcodeServFail], used at main.go:69, is not
    declared anywhere under src/ and is not one of the codec's response
    codes listed above; the spec's table sends a failed security validation
    to ServerFailure, so the constant is taken to be that code. *)
Definition RcodeServFail : Z := RcodeServerFailure.

(** Field assignments [m.f = v]; header fields are promoted in Go, so
    [m.Rcode = v] assigns inside the embedded header. *)
Definition hdr_upd (f : Header → Header) (m : Msg) : Msg :=
  mkMsg (f (MsgHdr m)) (Compress m) (Question m) (Answer m) (Ns m) (Extra m).

Definition set_Id (v : Z) : Msg → Msg :=
  hdr_upd (λ h, mkHeader v (Response h) (Opcode h) (Authoritative h)
    (Truncated h) (RecursionDesired h) (RecursionAvailable h) (Zero h)
    (AuthenticatedData h) (CheckingDisabled h) (Rcode h)).
Definition set_Response (v : bool) : Msg → Msg :=
  hdr_upd (λ h, mkHeader (Id h) v (Opcode h) (Authoritative h)
    (Truncated h) (RecursionDesired h) (RecursionAvailable h) (Zero h)
    (AuthenticatedData h) (CheckingDisabled h) (Rcode h)).
Definition set_Opcode (v : Z) : Msg → Msg :=
  hdr_upd (λ h, mkHeader (Id h) (Response h) v (Authoritative h)
    (Truncated h) (RecursionDesired h) (RecursionAvailable h) (Zero h)
    (AuthenticatedData h) (CheckingDisabled h) (Rcode h)).
Definition set_RecursionDesired (v : bool) : Msg → Msg :=
  hdr_upd (λ h, mkHeader (Id h) (Response h) (Opcode h) (Authoritative h)
    (Truncated h) v (RecursionAvailable h) (Zero h)
    (AuthenticatedData h) (CheckingDisabled h) (Rcode h)).
Definition set_RecursionAvailable (v : bool) : Msg → Msg :=
  hdr_upd (λ h, mkHeader (Id h) (Response h) (Opcode h) (Authoritative h)
    (Truncated h) (RecursionDesired h) v (Zero h)
    (AuthenticatedData h) (CheckingDisabled h) (Rcode h)).
Definition set_AuthenticatedData (v : bool) : Msg → Msg :=
  hdr_upd (λ h, mkHeader (Id h) (Response h) (Opcode h) (Authoritative h)
    (Truncated h) (RecursionDesired h) (RecursionAvailable h) (Zero h)
    v (CheckingDisabled h) (Rcode h)).
Definition set_CheckingDisabled (v : bool) : Msg → Msg :=
  hdr_upd (λ h, mkHeader (Id h) (Response h) (Opcode h) (Authoritative h)
    (Truncated h) (RecursionDesired h) (RecursionAvailable h) (Zero h)
    (AuthenticatedData h) v (Rcode h)).
Definition set_Rcode (v : Z) : Msg → Msg :=
  hdr_upd (λ h, mkHeader (Id h) (Response h) (Opcode h) (Authoritative h)
    (Truncated h) (RecursionDesired h) (RecursionAvailable h) (Zero h)
    (AuthenticatedData h) (CheckingDisabled h) v).

Definition set_Compress (v : bool) (m : Msg) : Msg :=
  mkMsg (MsgHdr m) v (Question m) (Answer m) (Ns m) (Extra m).
Definition set_Question (v : list QuestionEntry) (m : Msg) : Msg :=
  mkMsg (MsgHdr m) (Compress m) v (Answer m) (Ns m) (Extra m).
Definition set_Answer (v : list RR) (m : Msg) : Msg :=
  mkMsg (MsgHdr m) (Compress m) (Question m) v (Ns m) (Extra m).
Definition set_Ns (v : list RR) (m : Msg) : Msg :=
  mkMsg (MsgHdr m) (Compress m) (Question m) (Answer m) v (Extra m).
Definition set_Extra (v : list RR) (m : Msg) : Msg :=
  mkMsg (MsgHdr m) (Compress m) (Question m) (Answer m) (Ns m) v.

(** [new(dns.Msg)]: every field at its zero value. *)
Definition new_Msg : Msg :=
  mkMsg (mkHeader 0 false 0 false false false false false false false 0)
        false [] [] [] [].

(** [Msg.SetReply] of the codec (method of a message pointer, defaults.go):
<<
  dns.Id = request.Id
  dns.Response = true
  dns.Opcode = request.Opcode
  if dns.Opcode == OpcodeQuery {
      dns.RecursionDesired = request.RecursionDesired
      dns.CheckingDisabled = request.CheckingDisabled
  }
  dns.Rcode = RcodeSuccess
  if len(request.Question) > 0 {
      dns.Question = make([]Question, 1)
      dns.Question[0] = request.Question[0]
  }
>>
    The receiver is updated in place; here the updated message is
    returned.  Only the first question entry of the request is kept. *)
Definition SetReply (m request : Msg) : Msg :=
  let m := set_Id (Id (MsgHdr request)) m in
  let m := set_Response true m in
  let m := set_Opcode (Opcode (MsgHdr request)) m in
  let m :=
    if decide (Opcode (MsgHdr m) = OpcodeQuery) then
      let m := set_RecursionDesired (RecursionDesired (MsgHdr request)) m in
      set_CheckingDisabled (CheckingDisabled (MsgHdr request)) m
    else m in
  let m := set_Rcode RcodeSuccess m in
  match Question request with
  | q0 :: _ => set_Question [q0] m
  | [] => m
  end.

(** [Msg.SetRcode] of the codec: [dns.SetReply(request); dns.Rcode = rcode]. *)
Definition SetRcode (m request : Msg) (rcode : Z) : Msg :=
  let m := SetReply m request in
  set_Rcode rcode m.

(** A route table ([dns.ServeMux]): the patterns registered on it; in this
    program every pattern is routed to the one dispatcher. *)
Definition ServeMux : Type := list string.

(** [dns.Server], as far as [Start] and [Stop] use it.  [started] is the
    codec's private flag: set once the listener is bound, cleared by a
    shutdown. *)
Record Server : Type := mkServer {
  Addr : string;
  Net : string;
  Handler : ServeMux;
  UDPSize : Z;
  started : bool
}.

Definition set_started (v : bool) (srv : Server) : Server :=
  mkServer (Addr srv) (Net srv) (Handler srv) (UDPSize srv) v.

(** [Server.ListenAndServe] up to the point where it starts serving: it
    refuses a server that is already started and an unknown network, fails
    with the transport's error when the address cannot be bound, and
    otherwise marks the server started.  [bind] is the transport's answer. *)
Definition ListenAndServe (bind : option error) (srv : Server)
  : Server * option error :=
  if started srv then (srv, Some (errors_New "dns: server already started"))
  else if decide (Net srv ∈ ["tcp"; "tcp4"; "tcp6"; "udp"; "udp4"; "udp6"]) then
    match bind with
    | Some e => (srv, Some e)
    | None => (set_started true srv, None)
    end
  else (srv, Some (errors_New "dns: bad network")).

(** [Server.Shutdown]: an error when the server is not started, otherwise
    the listener is closed, the flag cleared and [nil] returned. *)
Definition Shutdown (srv : Server) : Server * option error :=
  if started srv then (set_started false srv, None)
  else (srv, Some (errors_New "dns: server not started")).


End dns.

(** ** What a request handler can do to the outside world

    The dispatcher talks to three collaborators: the process-wide log
    ([log.Printf]), the resolving engine ([s.resolver.Query]) and the
    transport's response writer ([w.WriteMsg]).  A run is recorded as the
    chronological list of these calls. *)
Inductive Event : Type :=
  | Log_request (qname : string) (qtype : Z)            (* main.go:54 *)
  | Log_resolve_error (qname : string) (err : error)    (* main.go:60 *)
  | Log_write_error (err : error)                       (* main.go:92 *)
  | Call_Query (qname : string) (qtype : Z)             (* main.go:57 *)
  | Call_WriteMsg (m : dns.Msg).                        (* main.go:45,74,91 *)

#[global] Instance Event_eq_dec : EqDecision Event.
Proof. solve_decision. Defined.

(** The collaborators' answers.  [resolver_Query] returns Go's pair
    [(response, err)], either of which may be [nil]; [w_WriteMsg] returns
    [nil] or the transmission error. *)
Record World : Type := mkWorld {
  resolver_Query : string → Z → option dns.Msg * option error;
  w_WriteMsg : dns.Msg → option error
}.

(** A Go function body either returns or panics (index out of range, nil
    dereference). *)
Inductive outcome (A : Type) : Type :=
  | Returned (a : A)
  | Panicked.
Arguments Returned {A} a.
Arguments Panicked {A}.

(** The handler monad: read the world, extend the trace, return or panic. *)
Definition M (A : Type) : Type := World → list Event → outcome A * list Event.

#[global] Instance M_ret : MRet M := λ A a _ tr, (Returned a, tr).
#[global] Instance M_bind : MBind M := λ A B k m w tr,
  match m w tr with
  | (Returned a, tr') => k a w tr'
  | (Panicked, tr') => (Panicked, tr')
  end.

Definition panic {A : Type} : M A := λ _ tr, (Panicked, tr).

Definition emit (e : Event) : M unit := λ _ tr, (Returned (), tr ++ [e]).

(** [log.Printf] at one of the three call sites. *)
Definition log_Printf (e : Event) : M unit := emit e.

(** [s.resolver.Query(qname, qtype)]. *)
Definition Query (qname : string) (qtype : Z) : M (option dns.Msg * option error) :=
  λ w tr, (Returned (resolver_Query w qname qtype), tr ++ [Call_Query qname qtype]).

(** [w.WriteMsg(reply)]. *)
Definition WriteMsg (reply : dns.Msg) : M (option error) :=
  λ w tr, (Returned (w_WriteMsg w reply), tr ++ [Call_WriteMsg reply]).

(** Slice indexing [xs[i]]: panics out of range. *)
Definition index {A : Type} (xs : list A) (i : nat) : M A :=
  match xs !! i with
  | Some x => mret x
  | None => panic
  end.

(** ** [handleDNSRequest] (main.go:35-94) *)
Definition handleDNSRequest (r : dns.Msg) : M unit :=
  let reply := dns.new_Msg in
  let reply := dns.SetReply reply r in
  let reply := dns.set_RecursionAvailable true reply in
  let reply := dns.set_Compress true reply in
  if decide (length (dns.Question r) = 0) then
    let reply := dns.SetRcode reply r dns.RcodeFormatError in
    WriteMsg reply;;
    mret ()
  else
    question ← index (dns.Question r) 0;
    let qname := dns.Name question in
    let qtype := dns.Qtype question in
    log_Printf (Log_request qname qtype);;
    '(response, err) ← Query qname qtype;
    match err with
    | Some err =>
        log_Printf (Log_resolve_error qname err);;
        let reply :=
          if decide (err = goresolver.ErrNoResult ∨ err = goresolver.ErrNoData)
          then dns.SetRcode reply r dns.RcodeNameError
          else if decide (err = goresolver.ErrInvalidQuery)
          then dns.SetRcode reply r dns.RcodeFormatError
          else if decide (err = goresolver.ErrDNSSECValidationFailed)
          then dns.SetRcode reply r dns.RcodeServFail
          else dns.SetRcode reply r dns.RcodeServerFailure in
        WriteMsg reply;;
        mret ()
    | None =>
        let reply :=
          match response with
          | Some response =>
              let reply := dns.set_Answer (dns.Answer response) reply in
              let reply := dns.set_Ns (dns.Ns response) reply in
              let reply := dns.set_Extra (dns.Extra response) reply in
              let reply := dns.set_Rcode (dns.Rcode (dns.MsgHdr response)) reply in
              let reply := dns.set_AuthenticatedData
                             (dns.AuthenticatedData (dns.MsgHdr response)) reply in
              dns.set_CheckingDisabled
                (dns.CheckingDisabled (dns.MsgHdr response)) reply
          | None => reply
          end in
        err ← WriteMsg reply;
        match err with
        | Some err => log_Printf (Log_write_error err)
        | None => mret ()
        end
    end.

(** Running the handler on an inbound message from an empty trace. *)
Definition run (w : World) (r : dns.Msg) : outcome unit * list Event :=
  handleDNSRequest r w [].

(** The replies handed to the transport, in order. *)
Definition written (tr : list Event) : list dns.Msg :=
  omap (λ e, match e with Call_WriteMsg m => Some m | _ => None end) tr.

(** The engine calls made, in order. *)
Definition queried (tr : list Event) : list (string * Z) :=
  omap (λ e, match e with Call_Query n t => Some (n, t) | _ => None end) tr.

(** The log lines recording a transmission failure. *)
Definition write_failures_logged (tr : list Event) : list error :=
  omap (λ e, match e with Log_write_error err => Some err | _ => None end) tr.

(** ** The three paths of the dispatcher *)

(** The reply as it stands after main.go:37-40. *)
Definition initial_reply (r : dns.Msg) : dns.Msg :=
  dns.set_Compress true
    (dns.set_RecursionAvailable true (dns.SetReply dns.new_Msg r)).

(** The response code picked by [switch err] (main.go:63-72). *)
Definition switch_err (err : error) : Z :=
  if decide (err = goresolver.ErrNoResult ∨ err = goresolver.ErrNoData)
  then dns.RcodeNameError
  else if decide (err = goresolver.ErrInvalidQuery)
  then dns.RcodeFormatError
  else if decide (err = goresolver.ErrDNSSECValidationFailed)
  then dns.RcodeServFail
  else dns.RcodeServerFailure.

(** The copy of the engine's answer into the reply (main.go:79-88). *)
Definition copy_response (response : option dns.Msg) (reply : dns.Msg) : dns.Msg :=
  match response with
  | Some response =>
      dns.set_CheckingDisabled (dns.CheckingDisabled (dns.MsgHdr response))
        (dns.set_AuthenticatedData (dns.AuthenticatedData (dns.MsgHdr response))
          (dns.set_Rcode (dns.Rcode (dns.MsgHdr response))
            (dns.set_Extra (dns.Extra response)
              (dns.set_Ns (dns.Ns response)
                (dns.set_Answer (dns.Answer response) reply)))))
  | None => reply
  end.


(** ** The listener pair and its lifecycle (main.go:16-19, 96-141)

    [dns.Server] values live on the heap and are reached through pointers;
    [s.server] is [nil] until [Start] assigns it.  The stream listener is only
    held by the local variable [tcpServer] of [Start] and by the goroutine
    that serves it. *)
Abbreviation loc := nat (only parsing).

(** The two goroutines launched by [Start].  The first closure reads the
    field [s.server] when it runs; the second holds [tcpServer]. *)
Inductive Goroutine : Type :=
  | Go_server_ListenAndServe                         (* main.go:113-117 *)
  | Go_tcpServer_ListenAndServe (tcpServer : loc).   (* main.go:126-130 *)

Inductive LifecycleEvent : Type :=
  | Log_start (addr : string)               (* main.go:110 *)
  | Log_server_error (err : error)          (* main.go:115 *)
  | Log_tcp_server_error (err : error)      (* main.go:128 *)
  | Call_ListenAndServe (l : loc)
  | Call_Shutdown (l : loc).

Record Process : Type := mkProcess {
  s_server : option loc;
  heap : gmap nat dns.Server;
  goroutines : list Goroutine;
  calls : list LifecycleEvent
}.

(** The process right after [NewDNSServer]. *)
Definition initial_process : Process := mkProcess None ∅ [] [].

(** [&dns.Server{...}]: a fresh heap cell. *)
Definition alloc (srv : dns.Server) (p : Process) : loc * Process :=
  let l := fresh (dom (heap p)) in
  (l, mkProcess (s_server p) (<[l := srv]> (heap p)) (goroutines p) (calls p)).

Definition set_s_server (l : loc) (p : Process) : Process :=
  mkProcess (Some l) (heap p) (goroutines p) (calls p).

Definition store (l : loc) (srv : dns.Server) (p : Process) : Process :=
  mkProcess (s_server p) (<[l := srv]> (heap p)) (goroutines p) (calls p).

Definition go (g : Goroutine) (p : Process) : Process :=
  mkProcess (s_server p) (heap p) (goroutines p ++ [g]) (calls p).

Definition record (e : LifecycleEvent) (p : Process) : Process :=
  mkProcess (s_server p) (heap p) (goroutines p) (calls p ++ [e]).

(** [Start] (main.go:97-133). *)
Definition Start (addr : string) (p : Process) : option error * Process :=
  let mux : dns.ServeMux := ["."] in
  let '(udp, p) := alloc (dns.mkServer addr "udp" mux 65535 false) p in
  let p := set_s_server udp p in
  let p := record (Log_start addr) p in
  let p := go Go_server_ListenAndServe p in
  let '(tcpServer, p) := alloc (dns.mkServer addr "tcp" mux 0 false) p in
  let p := go (Go_tcpServer_ListenAndServe tcpServer) p in
  (None, p).

(** [Stop] (main.go:136-141).  A pointer that is not [nil] always reaches a
    heap cell in Go; the model panics on a dangling one. *)
Definition Stop (p : Process) : outcome (option error) * Process :=
  match s_server p with
  | Some l =>
      match heap p !! l with
      | Some srv =>
          let '(srv, err) := dns.Shutdown srv in
          (Returned err, store l srv (record (Call_Shutdown l) p))
      | None => (Panicked, p)
      end
  | None => (Returned None, p)
  end.

(** One scheduling step: goroutine number [i] of the launched ones runs its
    [ListenAndServe] with the transport answering [bind], logs the error if
    there is one, and leaves the list of goroutines that have not run yet.
    [None] is a crashed process (a nil or dangling pointer). *)
Definition go_step (i : nat) (bind : option error) (p : Process) : option Process :=
  match goroutines p !! i with
  | None => Some p
  | Some g =>
      let p := mkProcess (s_server p) (heap p) (delete i (goroutines p)) (calls p) in
      l ← match g with
          | Go_server_ListenAndServe => s_server p
          | Go_tcpServer_ListenAndServe l => Some l
          end;
      srv ← heap p !! l;
      let '(srv, err) := dns.ListenAndServe bind srv in
      let p := store l srv (record (Call_ListenAndServe l) p) in
      Some match err, g with
           | None, _ => p
           | Some e, Go_server_ListenAndServe => record (Log_server_error e) p
           | Some e, Go_tcpServer_ListenAndServe _ => record (Log_tcp_server_error e) p
           end
  end.

(** A schedule: which goroutine runs next and what the transport answers. *)
Fixpoint run_schedule (sched : list (nat * option error)) (p : Process)
  : option Process :=
  match sched with
  | [] => Some p
  | (i, bind) :: sched => p ← go_step i bind p; run_schedule sched p
  end.

(** The shutdowns issued, in order. *)
Definition shutdowns (evs : list LifecycleEvent) : list loc :=
  omap (λ e, match e with Call_Shutdown l => Some l | _ => None end) evs.

(** ** Sample requests and collaborators *)
Definition q_example : dns.QuestionEntry := dns.mkQuestion "example.test." 1 1.
Definition q_other : dns.QuestionEntry := dns.mkQuestion "other.test." 28 1.

Definition request (qs : list dns.QuestionEntry) : dns.Msg :=
  dns.mkMsg (dns.mkHeader 4660 false 0 false false true false false false false 0)
            false qs [] [] [].

Definition rr_example : dns.RR := dns.mkRR "example.test." 1 1 300 "192.0.2.1".

Definition response_example : dns.Msg :=
  dns.mkMsg (dns.mkHeader 0 true 0 false false true true false true false 0)
            false [q_example] [rr_example] [] [].

(** The engine answers every query with [response_example]; the transport
    accepts every reply. *)
Definition world_ok : World :=
  mkWorld (λ _ _, (Some response_example, None)) (λ _, None).

(** Same engine, but the transport refuses every reply. *)
Definition world_write_fails : World :=
  mkWorld (λ _ _, (Some response_example, None))
          (λ _, Some (errors_New "write: connection closed")).

(** The engine fails with [err]; the transport refuses every reply. *)
Definition world_error_write_fails (err : error) : World :=
  mkWorld (λ _ _, (None, Some err))
          (λ _, Some (errors_New "write: connection closed")).

(** The engine returns neither an answer nor an error. *)
Definition world_nil_nil : World :=
  mkWorld (λ _ _, (None, None)) (λ _, None).

(** The one reply a run hands to the transport, as a function of the inbound
    message and of what the engine answers to the first question. *)
Definition reply_for (w : World) (r : dns.Msg) : dns.Msg :=
  match dns.Question r !! 0 with
  | None => dns.SetRcode (initial_reply r) r dns.RcodeFormatError
  | Some q =>
      match resolver_Query w (dns.Name q) (dns.Qtype q) with
      | (_, Some err) => dns.SetRcode (initial_reply r) r (switch_err err)
      | (response, None) => copy_response response (initial_reply r)
      end
  end.

(** The response code the spec's table gives to an engine failure. *)
Definition table_rcode (err : error) : Z :=
  match err with
  | ErrNoResult | ErrNoData => dns.RcodeNameError
  | ErrInvalidQuery => dns.RcodeFormatError
  | ErrDNSSECValidationFailed => dns.RcodeServerFailure
  | errors_New _ => dns.RcodeServerFailure
  end.

(** The process once [Start ":5053"] has run from [initial_process] and both
    goroutines have bound their listeners. *)
Definition process_serving : Process :=
  mkProcess (Some 0)
    (<[1 := dns.mkServer ":5053" "tcp" ["."] 0 true]>
       (<[0 := dns.mkServer ":5053" "udp" ["."] 65535 true]> ∅))
    []
    [Log_start ":5053"; Call_ListenAndServe 0; Call_ListenAndServe 1].

(** After [Start] the process holds the packet listener in [s.server] and
    the stream listener in another cell. *)
Definition listeners_live (udp tcp : loc) (p : Process) : Prop :=
  s_server p = Some udp ∧ udp ≠ tcp ∧
  (∃ srv, heap p !! udp = Some srv ∧ dns.Net srv = "udp") ∧
  (∃ srv, heap p !! tcp = Some srv ∧ dns.Net srv = "tcp").

(** Every goroutine still to run reaches a server. *)
Definition goroutine_valid (p : Process) (g : Goroutine) : Prop :=
  match g with
  | Go_server_ListenAndServe => ∃ l, s_server p = Some l ∧ is_Some (heap p !! l)
  | Go_tcpServer_ListenAndServe l => is_Some (heap p !! l)
  end.

(** ** [NewDNSServer] and [main] (main.go:22-32, 143-175) *)

(** [NewDNSServer]: [new_resolver] is the error result of
    [goresolver.NewResolver("")].  On an error no server is returned; otherwise
    the server holds the engine and a [nil] [server] field, which is
    [initial_process] (the engine itself is the [World]'s [resolver_Query]). *)
Definition NewDNSServer (new_resolver : option error)
  : option Process * option error :=
  match new_resolver with
  | Some err => (None, Some err)
  | None => (Some initial_process, None)
  end.

(** What [main] itself prints and does, in order. *)
Inductive MainEvent : Type :=
  | Println_init                      (* main.go:144 *)
  | Fatalf_create (err : error)       (* main.go:149 *)
  | Fatalf_start (err : error)        (* main.go:154 *)
  | Println_ready                     (* main.go:157 *)
  | Println_signal                    (* main.go:165 *)
  | Printf_stop_error (err : error)   (* main.go:169 *)
  | Sleep_100ms                       (* main.go:173 *)
  | Println_stopped.                  (* main.go:174 *)

(** How the process ends: [log.Fatalf] exits with status 1, [main] returns,
    or a goroutine panics. *)
Inductive ExitStatus : Type :=
  | Exit_fatal
  | Exit_normal
  | Exit_panic.

(** [main].  The goroutines run along [before_signal] until the termination
    signal is received at main.go:164, and along [during_grace] while [main]
    sleeps at main.go:173. *)
Definition main (new_resolver : option error)
    (before_signal during_grace : list (nat * option error))
  : ExitStatus * list MainEvent * option Process :=
  let out := [Println_init] in
  match NewDNSServer new_resolver with
  | (_, Some err) => (Exit_fatal, out ++ [Fatalf_create err], None)
  | (None, None) => (Exit_panic, out, None)
  | (Some server, None) =>
      match Start ":5053" server with
      | (Some err, p) => (Exit_fatal, out ++ [Fatalf_start err], Some p)
      | (None, p) =>
          let out := out ++ [Println_ready] in
          match run_schedule before_signal p with
          | None => (Exit_panic, out, None)
          | Some p =>
              let out := out ++ [Println_signal] in
              match Stop p with
              | (Panicked, p) => (Exit_panic, out, Some p)
              | (Returned err, p) =>
                  let out :=
                    match err with
                    | Some err => out ++ [Printf_stop_error err]
                    | None => out
                    end in
                  let out := out ++ [Sleep_100ms] in
                  match run_schedule during_grace p with
                  | None => (Exit_panic, out, None)
                  | Some p => (Exit_normal, out ++ [Println_stopped], Some p)
                  end
              end
          end
      end
  end.

(** A server reached by [l] is started. *)
Definition is_started (p : Process) (l : loc) : Prop :=
  ∃ srv, heap p !! l = Some srv ∧ dns.started srv = true.


(** The engine failures logged, in order. *)
Definition resolve_errors_logged (tr : list Event) : list (string * error) :=
  omap (λ e, match e with Log_resolve_error n err => Some (n, err) | _ => None end) tr.


(** The process once [Start ":5053"] has run from [initial_process] and only
    the stream goroutine has bound its listener. *)
Definition process_stream_serving : Process :=
  mkProcess (Some 0)
    (<[1 := dns.mkServer ":5053" "tcp" ["."] 0 true]>
       (<[0 := dns.mkServer ":5053" "udp" ["."] 65535 false]> ∅))
    [Go_server_ListenAndServe]
    [Log_start ":5053"; Call_ListenAndServe 1].

(** * Properties of the dispatcher *)

Section Paths.
Variable w : World.
Variable r : dns.Msg.

Lemma run_no_question :
  dns.Question r = [] →
  run w r =
    (Returned (),
     [Call_WriteMsg (dns.SetRcode (initial_reply r) r dns.RcodeFormatError)]).
Proof.
  intros Hq. unfold run, handleDNSRequest. rewrite Hq. reflexivity.
Qed.

Lemma run_engine_error q response err :
  dns.Question r !! 0 = Some q →
  resolver_Query w (dns.Name q) (dns.Qtype q) = (response, Some err) →
  run w r =
    (Returned (),
     [Log_request (dns.Name q) (dns.Qtype q);
      Call_Query (dns.Name q) (dns.Qtype q);
      Log_resolve_error (dns.Name q) err;
      Call_WriteMsg (dns.SetRcode (initial_reply r) r (switch_err err))]).
Proof.
  intros Hq Hres. unfold run, handleDNSRequest.
  destruct (dns.Question r) as [|q0 qs] eqn:HQ; [discriminate|].
  injection Hq as ->.
  cbn. destruct (decide _) as [Hlen|_]; [discriminate Hlen|].
  unfold mbind, M_bind, Query. cbn. rewrite Hres. cbn.
  unfold switch_err, initial_reply.
  repeat case_decide; reflexivity.
Qed.

Lemma run_engine_success q response :
  dns.Question r !! 0 = Some q →
  resolver_Query w (dns.Name q) (dns.Qtype q) = (response, None) →
  let reply := copy_response response (initial_reply r) in
  run w r =
    (Returned (),
     [Log_request (dns.Name q) (dns.Qtype q);
      Call_Query (dns.Name q) (dns.Qtype q);
      Call_WriteMsg reply]
     ++ match w_WriteMsg w reply with
        | Some e => [Log_write_error e]
        | None => []
        end).
Proof.
  intros Hq Hres. unfold run, handleDNSRequest.
  destruct (dns.Question r) as [|q0 qs] eqn:HQ; [discriminate|].
  injection Hq as ->.
  cbn. destruct (decide _) as [Hlen|_]; [discriminate Hlen|].
  unfold mbind, M_bind, Query. cbn. rewrite Hres. cbn.
  unfold copy_response, initial_reply.
  destruct response as [resp|]; cbn;
    match goal with |- context [w_WriteMsg w ?m] =>
      destruct (w_WriteMsg w m) end; reflexivity.
Qed.

End Paths.

(** ** What the codec's reply constructors touch *)

Ltac unfold_msg :=
  unfold initial_reply, copy_response, dns.SetRcode, dns.SetReply.

Ltac msg_crush :=
  unfold_msg;
  repeat case_decide;
  repeat match goal with
         | |- context [match dns.Question ?r with _ => _ end] =>
             destruct (dns.Question r)
         end; reflexivity.

Lemma SetRcode_Rcode m r rc :
  dns.Rcode (dns.MsgHdr (dns.SetRcode m r rc)) = rc.
Proof. msg_crush. Qed.

Lemma SetRcode_sections m r rc :
  dns.Answer (dns.SetRcode m r rc) = dns.Answer m ∧
  dns.Ns (dns.SetRcode m r rc) = dns.Ns m ∧
  dns.Extra (dns.SetRcode m r rc) = dns.Extra m.
Proof. repeat split; msg_crush. Qed.

Lemma SetRcode_flags m r rc :
  dns.RecursionAvailable (dns.MsgHdr (dns.SetRcode m r rc))
    = dns.RecursionAvailable (dns.MsgHdr m) ∧
  dns.Compress (dns.SetRcode m r rc) = dns.Compress m.
Proof. split; msg_crush. Qed.

Lemma SetRcode_Id m r rc :
  dns.Id (dns.MsgHdr (dns.SetRcode m r rc)) = dns.Id (dns.MsgHdr r).
Proof. msg_crush. Qed.

Lemma SetRcode_Question m r rc q qs :
  dns.Question r = q :: qs →
  dns.Question (dns.SetRcode m r rc) = [q].
Proof. intros H. unfold_msg. rewrite H. case_decide; reflexivity. Qed.

Lemma initial_reply_sections r :
  dns.Answer (initial_reply r) = [] ∧
  dns.Ns (initial_reply r) = [] ∧
  dns.Extra (initial_reply r) = [].
Proof. repeat split; msg_crush. Qed.

Lemma initial_reply_flags r :
  dns.RecursionAvailable (dns.MsgHdr (initial_reply r)) = true ∧
  dns.Compress (initial_reply r) = true.
Proof. split; msg_crush. Qed.

Lemma initial_reply_Rcode r :
  dns.Rcode (dns.MsgHdr (initial_reply r)) = dns.RcodeSuccess.
Proof. msg_crush. Qed.

Lemma initial_reply_Id r :
  dns.Id (dns.MsgHdr (initial_reply r)) = dns.Id (dns.MsgHdr r).
Proof. msg_crush. Qed.

Lemma initial_reply_Question r :
  dns.Question (initial_reply r) = take 1 (dns.Question r).
Proof. msg_crush. Qed.

Lemma copy_response_frame response m :
  dns.Id (dns.MsgHdr (copy_response response m)) = dns.Id (dns.MsgHdr m) ∧
  dns.Question (copy_response response m) = dns.Question m ∧
  dns.RecursionAvailable (dns.MsgHdr (copy_response response m))
    = dns.RecursionAvailable (dns.MsgHdr m) ∧
  dns.Compress (copy_response response m) = dns.Compress m.
Proof. destruct response; repeat split; reflexivity. Qed.

(** The codec reads only the header and the first question of the request. *)
Lemma SetReply_ext m r1 r2 :
  dns.MsgHdr r1 = dns.MsgHdr r2 →
  dns.Question r1 !! 0 = dns.Question r2 !! 0 →
  dns.SetReply m r1 = dns.SetReply m r2.
Proof.
  intros Hh Hq. unfold dns.SetReply. rewrite Hh.
  destruct (dns.Question r1) as [|a1 l1], (dns.Question r2) as [|a2 l2];
    cbn in Hq; try discriminate; [reflexivity|].
  injection Hq as ->. reflexivity.
Qed.

Lemma switch_err_table err : switch_err err = table_rcode err.
Proof.
  unfold switch_err, goresolver.ErrNoResult, goresolver.ErrNoData,
    goresolver.ErrInvalidQuery, goresolver.ErrDNSSECValidationFailed.
  destruct err; repeat case_decide; try reflexivity;
    repeat match goal with
           | H : _ ∨ _ |- _ => destruct H
           | H : ¬ (_ ∨ _) |- _ => exfalso; apply H; auto
           end; congruence.
Qed.

(** ** Every run returns after exactly one write *)

Lemma run_written w r :
  (run w r).1 = Returned () ∧ written (run w r).2 = [reply_for w r].
Proof.
  unfold reply_for.
  destruct (dns.Question r !! 0) as [q|] eqn:Hq.
  - destruct (resolver_Query w (dns.Name q) (dns.Qtype q)) as [resp [e|]] eqn:Hres.
    + rewrite (run_engine_error w r q resp e Hq Hres). split; reflexivity.
    + rewrite (run_engine_success w r q resp Hq Hres).
      destruct (w_WriteMsg w _); split; reflexivity.
  - assert (dns.Question r = []) as Hnil
      by (destruct (dns.Question r); [reflexivity|discriminate]).
    rewrite (run_no_question w r Hnil). split; reflexivity.
Qed.

Lemma run_queried w r q :
  dns.Question r !! 0 = Some q →
  queried (run w r).2 = [(dns.Name q, dns.Qtype q)].
Proof.
  intros Hq.
  destruct (resolver_Query w (dns.Name q) (dns.Qtype q)) as [resp [e|]] eqn:Hres.
  - rewrite (run_engine_error w r q resp e Hq Hres). reflexivity.
  - rewrite (run_engine_success w r q resp Hq Hres).
    destruct (w_WriteMsg w _); reflexivity.
Qed.

(** ** The failure replies *)

(** C1: when the inbound message has a question and the engine call returns
    an error, the one reply written carries the response code the table gives
    to that error (NoResult and NoData: NameError; InvalidQuery: FormatError;
    a failed security validation: ServerFailure; anything else:
    ServerFailure), and its answer, authority and additional sections are
    empty. *)
Theorem engine_error_reply w r q response err :
  dns.Question r !! 0 = Some q →
  resolver_Query w (dns.Name q) (dns.Qtype q) = (response, Some err) →
  ∃ reply,
    written (run w r).2 = [reply] ∧
    dns.Rcode (dns.MsgHdr reply) =
      match err with
      | ErrNoResult | ErrNoData => dns.RcodeNameError
      | ErrInvalidQuery => dns.RcodeFormatError
      | ErrDNSSECValidationFailed => dns.RcodeServerFailure
      | errors_New _ => dns.RcodeServerFailure
      end ∧
    dns.Answer reply = [] ∧ dns.Ns reply = [] ∧ dns.Extra reply = [].
Proof.
  intros Hq Hres.
  exists (dns.SetRcode (initial_reply r) r (switch_err err)).
  rewrite (run_engine_error w r q response err Hq Hres).
  split; [reflexivity|].
  split; [rewrite SetRcode_Rcode; apply switch_err_table|].
  destruct (SetRcode_sections (initial_reply r) r (switch_err err)) as (-> & -> & ->).
  apply initial_reply_sections.
Qed.

Lemma engine_error_reply_witness :
  dns.Question (request [q_example; q_other]) !! 0 = Some q_example ∧
  resolver_Query (world_error_write_fails ErrNoData)
    (dns.Name q_example) (dns.Qtype q_example) = (None, Some ErrNoData) ∧
  ∃ reply,
    written (run (world_error_write_fails ErrNoData)
                 (request [q_example; q_other])).2 = [reply] ∧
    dns.Rcode (dns.MsgHdr reply) = dns.RcodeNameError ∧
    dns.Answer reply = [] ∧ dns.Ns reply = [] ∧ dns.Extra reply = [].
Proof.
  split; [reflexivity|]. split; [reflexivity|].
  apply (engine_error_reply (world_error_write_fails ErrNoData)
           (request [q_example; q_other]) q_example None ErrNoData);
    reflexivity.
Defined.

(** C2: on an inbound message without a question the handler writes one
    reply with response code FormatError and empty answer, authority and
    additional sections, and returns; the whole run is that single write, so
    the engine is never called. *)
Theorem no_question_format_error w r :
  dns.Question r = [] →
  ∃ reply,
    run w r = (Returned (), [Call_WriteMsg reply]) ∧
    queried (run w r).2 = [] ∧
    dns.Rcode (dns.MsgHdr reply) = dns.RcodeFormatError ∧
    dns.Answer reply = [] ∧ dns.Ns reply = [] ∧ dns.Extra reply = [].
Proof.
  intros Hq.
  exists (dns.SetRcode (initial_reply r) r dns.RcodeFormatError).
  rewrite (run_no_question w r Hq).
  split; [reflexivity|]. split; [reflexivity|].
  split; [apply SetRcode_Rcode|].
  destruct (SetRcode_sections (initial_reply r) r dns.RcodeFormatError)
    as (-> & -> & ->).
  apply initial_reply_sections.
Qed.

Lemma no_question_format_error_witness :
  dns.Question (request []) = [] ∧
  ∃ reply,
    run world_ok (request []) = (Returned (), [Call_WriteMsg reply]) ∧
    queried (run world_ok (request [])).2 = [] ∧
    dns.Rcode (dns.MsgHdr reply) = dns.RcodeFormatError ∧
    dns.Answer reply = [] ∧ dns.Ns reply = [] ∧ dns.Extra reply = [].
Proof.
  split; [reflexivity|].
  apply (no_question_format_error world_ok (request [])). reflexivity.
Defined.

(** ** The success reply *)

(** C3: when the inbound message has a question and the engine call returns
    an answer and no error, the one reply written has the answer, authority
    and additional sections, the response code and the authenticated-data and
    checking-disabled flags of that answer. *)
Theorem engine_success_copied w r q response :
  dns.Question r !! 0 = Some q →
  resolver_Query w (dns.Name q) (dns.Qtype q) = (Some response, None) →
  ∃ reply,
    written (run w r).2 = [reply] ∧
    dns.Answer reply = dns.Answer response ∧
    dns.Ns reply = dns.Ns response ∧
    dns.Extra reply = dns.Extra response ∧
    dns.Rcode (dns.MsgHdr reply) = dns.Rcode (dns.MsgHdr response) ∧
    dns.AuthenticatedData (dns.MsgHdr reply)
      = dns.AuthenticatedData (dns.MsgHdr response) ∧
    dns.CheckingDisabled (dns.MsgHdr reply)
      = dns.CheckingDisabled (dns.MsgHdr response).
Proof.
  intros Hq Hres.
  exists (copy_response (Some response) (initial_reply r)).
  rewrite (run_engine_success w r q (Some response) Hq Hres).
  split; [destruct (w_WriteMsg w _); reflexivity|].
  repeat split; reflexivity.
Qed.

Lemma engine_success_copied_witness :
  dns.Question (request [q_example]) !! 0 = Some q_example ∧
  resolver_Query world_ok (dns.Name q_example) (dns.Qtype q_example)
    = (Some response_example, None) ∧
  ∃ reply,
    written (run world_ok (request [q_example])).2 = [reply] ∧
    dns.Answer reply = dns.Answer response_example ∧
    dns.Ns reply = dns.Ns response_example ∧
    dns.Extra reply = dns.Extra response_example ∧
    dns.Rcode (dns.MsgHdr reply) = dns.Rcode (dns.MsgHdr response_example) ∧
    dns.AuthenticatedData (dns.MsgHdr reply)
      = dns.AuthenticatedData (dns.MsgHdr response_example) ∧
    dns.CheckingDisabled (dns.MsgHdr reply)
      = dns.CheckingDisabled (dns.MsgHdr response_example).
Proof.
  split; [reflexivity|]. split; [reflexivity|].
  apply (engine_success_copied world_ok (request [q_example]) q_example
           response_example); reflexivity.
Defined.

(** C10: when the engine call returns neither an error nor an answer, the
    handler returns without a panic, having written exactly one reply: its
    response code is the success code set when the reply was built, its
    answer, authority and additional sections are empty and
    recursion-available is set. *)
Theorem nil_outcome_reply w r q :
  dns.Question r !! 0 = Some q →
  resolver_Query w (dns.Name q) (dns.Qtype q) = (None, None) →
  ∃ reply,
    (run w r).1 = Returned () ∧
    written (run w r).2 = [reply] ∧
    dns.Rcode (dns.MsgHdr reply) = dns.RcodeSuccess ∧
    dns.Answer reply = [] ∧ dns.Ns reply = [] ∧ dns.Extra reply = [] ∧
    dns.RecursionAvailable (dns.MsgHdr reply) = true.
Proof.
  intros Hq Hres. exists (initial_reply r).
  rewrite (run_engine_success w r q None Hq Hres). unfold copy_response.
  split; [reflexivity|].
  split; [destruct (w_WriteMsg w _); reflexivity|].
  split; [apply initial_reply_Rcode|].
  destruct (initial_reply_sections r) as (-> & -> & ->).
  do 3 (split; [reflexivity|]). apply initial_reply_flags.
Qed.

Lemma nil_outcome_reply_witness :
  dns.Question (request [q_example]) !! 0 = Some q_example ∧
  resolver_Query world_nil_nil (dns.Name q_example) (dns.Qtype q_example)
    = (None, None) ∧
  ∃ reply,
    (run world_nil_nil (request [q_example])).1 = Returned () ∧
    written (run world_nil_nil (request [q_example])).2 = [reply] ∧
    dns.Rcode (dns.MsgHdr reply) = dns.RcodeSuccess ∧
    dns.Answer reply = [] ∧ dns.Ns reply = [] ∧ dns.Extra reply = [] ∧
    dns.RecursionAvailable (dns.MsgHdr reply) = true.
Proof.
  split; [reflexivity|]. split; [reflexivity|].
  apply (nil_outcome_reply world_nil_nil (request [q_example]) q_example);
    reflexivity.
Defined.

(** ** What every reply carries *)

Lemma reply_for_flags w r :
  dns.RecursionAvailable (dns.MsgHdr (reply_for w r)) = true ∧
  dns.Compress (reply_for w r) = true.
Proof.
  unfold reply_for.
  destruct (dns.Question r !! 0) as [q|];
    [destruct (resolver_Query w _ _) as [resp [e|]]|].
  - destruct (SetRcode_flags (initial_reply r) r (switch_err e)) as [-> ->].
    apply initial_reply_flags.
  - destruct (copy_response_frame resp (initial_reply r)) as (_ & _ & -> & ->).
    apply initial_reply_flags.
  - destruct (SetRcode_flags (initial_reply r) r dns.RcodeFormatError) as [-> ->].
    apply initial_reply_flags.
Qed.

(** C4: whatever the inbound message and whatever the engine answers (an
    answer, no answer, any error, or no call at all because there is no
    question), the handler writes one reply, with recursion-available set and
    compression enabled. *)
Theorem reply_recursion_available_compressed w r :
  ∃ reply,
    written (run w r).2 = [reply] ∧
    dns.RecursionAvailable (dns.MsgHdr reply) = true ∧
    dns.Compress reply = true.
Proof.
  exists (reply_for w r). split; [apply run_written|apply reply_for_flags].
Qed.

Lemma reply_for_Id_Question w r :
  dns.Id (dns.MsgHdr (reply_for w r)) = dns.Id (dns.MsgHdr r) ∧
  dns.Question (reply_for w r) = take 1 (dns.Question r).
Proof.
  unfold reply_for.
  destruct (dns.Question r !! 0) as [q|] eqn:Hq.
  - destruct (dns.Question r) as [|q0 qs] eqn:HQ; [discriminate|].
    injection Hq as ->.
    destruct (resolver_Query w _ _) as [resp [e|]].
    + split; [apply SetRcode_Id|]. apply (SetRcode_Question _ _ _ _ _ HQ).
    + destruct (copy_response_frame resp (initial_reply r)) as (-> & -> & _).
      split; [apply initial_reply_Id|].
      rewrite initial_reply_Question, HQ. reflexivity.
  - assert (dns.Question r = []) as HQ
      by (destruct (dns.Question r); [reflexivity|discriminate]).
    split; [apply SetRcode_Id|].
    unfold_msg. rewrite HQ. repeat case_decide; reflexivity.
Qed.

(** C5, as the code has it: the one reply written carries the transaction
    identifier of the inbound message, and its question section is the first
    question entry of the inbound message alone (nothing when there is none);
    it is the inbound question section whenever that has at most one
    entry. *)
Theorem reply_id_and_first_question w r :
  ∃ reply,
    written (run w r).2 = [reply] ∧
    dns.Id (dns.MsgHdr reply) = dns.Id (dns.MsgHdr r) ∧
    dns.Question reply = take 1 (dns.Question r).
Proof.
  exists (reply_for w r). split; [apply run_written|apply reply_for_Id_Question].
Qed.

(** C5 as stated fails: for an inbound message with two questions the reply
    carries only the first, so its question section is not the inbound
    one. *)
Lemma reply_question_section_differs :
  written (run world_ok (request [q_example; q_other])).2
    = [reply_for world_ok (request [q_example; q_other])] ∧
  dns.Question (reply_for world_ok (request [q_example; q_other]))
    = [q_example] ∧
  dns.Question (reply_for world_ok (request [q_example; q_other]))
    ≠ dns.Question (request [q_example; q_other]).
Proof. split; [reflexivity|]. split; [reflexivity|]. discriminate. Qed.

(** ** Only the first question counts *)

Lemma initial_reply_ext r1 r2 :
  dns.MsgHdr r1 = dns.MsgHdr r2 →
  dns.Question r1 !! 0 = dns.Question r2 !! 0 →
  initial_reply r1 = initial_reply r2.
Proof.
  intros Hh Hq. unfold initial_reply. rewrite (SetReply_ext _ r1 r2 Hh Hq).
  reflexivity.
Qed.

Lemma SetRcode_ext m r1 r2 rc :
  dns.MsgHdr r1 = dns.MsgHdr r2 →
  dns.Question r1 !! 0 = dns.Question r2 !! 0 →
  dns.SetRcode m r1 rc = dns.SetRcode m r2 rc.
Proof.
  intros Hh Hq. unfold dns.SetRcode. rewrite (SetReply_ext _ r1 r2 Hh Hq).
  reflexivity.
Qed.

Lemma reply_for_ext w1 w2 r1 r2 :
  dns.MsgHdr r1 = dns.MsgHdr r2 →
  dns.Question r1 !! 0 = dns.Question r2 !! 0 →
  (∀ q, dns.Question r1 !! 0 = Some q →
        resolver_Query w1 (dns.Name q) (dns.Qtype q)
        = resolver_Query w2 (dns.Name q) (dns.Qtype q)) →
  reply_for w1 r1 = reply_for w2 r2.
Proof.
  intros Hh Hq Hres. unfold reply_for. rewrite <- Hq.
  rewrite (initial_reply_ext r1 r2 Hh Hq).
  destruct (dns.Question r1 !! 0) as [q|] eqn:E.
  - rewrite <- (Hres q eq_refl).
    destruct (resolver_Query w1 _ _) as [resp [e|]]; [|reflexivity].
    apply SetRcode_ext; [exact Hh|congruence].
  - apply SetRcode_ext; [exact Hh|congruence].
Qed.

(** C6: two inbound messages with the same header (transaction identifier
    and flags) and the same first question, whatever their later questions,
    make the handler call the engine once with the name and type of that
    first question; when the engine gives the same outcome to that call the
    replies written are equal, and against the same collaborators the two
    runs are equal event for event. *)
Theorem later_questions_ignored w1 w2 r1 r2 q :
  dns.MsgHdr r1 = dns.MsgHdr r2 →
  dns.Question r1 !! 0 = Some q →
  dns.Question r2 !! 0 = Some q →
  resolver_Query w1 (dns.Name q) (dns.Qtype q)
    = resolver_Query w2 (dns.Name q) (dns.Qtype q) →
  queried (run w1 r1).2 = [(dns.Name q, dns.Qtype q)] ∧
  queried (run w2 r2).2 = [(dns.Name q, dns.Qtype q)] ∧
  written (run w1 r1).2 = written (run w2 r2).2 ∧
  run w1 r1 = run w1 r2.
Proof.
  intros Hh Hq1 Hq2 Hres.
  split; [apply (run_queried w1 r1 q Hq1)|].
  split; [apply (run_queried w2 r2 q Hq2)|].
  assert (dns.Question r1 !! 0 = dns.Question r2 !! 0) as Hq by congruence.
  split.
  - destruct (run_written w1 r1) as [_ ->], (run_written w2 r2) as [_ ->].
    f_equal. apply reply_for_ext; [exact Hh|exact Hq|].
    intros q' Hq'. assert (q' = q) as -> by congruence. exact Hres.
  - destruct (resolver_Query w1 (dns.Name q) (dns.Qtype q)) as [resp [e|]] eqn:E.
    + rewrite (run_engine_error w1 r1 q resp e Hq1 E),
              (run_engine_error w1 r2 q resp e Hq2 E).
      rewrite (initial_reply_ext r1 r2 Hh Hq).
      rewrite (SetRcode_ext _ r1 r2 _ Hh Hq). reflexivity.
    + rewrite (run_engine_success w1 r1 q resp Hq1 E),
              (run_engine_success w1 r2 q resp Hq2 E).
      rewrite (initial_reply_ext r1 r2 Hh Hq). reflexivity.
Qed.

Lemma later_questions_ignored_witness :
  dns.MsgHdr (request [q_example; q_other]) = dns.MsgHdr (request [q_example]) ∧
  dns.Question (request [q_example; q_other]) !! 0 = Some q_example ∧
  dns.Question (request [q_example]) !! 0 = Some q_example ∧
  resolver_Query world_ok (dns.Name q_example) (dns.Qtype q_example)
    = resolver_Query world_write_fails (dns.Name q_example) (dns.Qtype q_example) ∧
  queried (run world_ok (request [q_example; q_other])).2
    = [(dns.Name q_example, dns.Qtype q_example)] ∧
  queried (run world_write_fails (request [q_example])).2
    = [(dns.Name q_example, dns.Qtype q_example)] ∧
  written (run world_ok (request [q_example; q_other])).2
    = written (run world_write_fails (request [q_example])).2 ∧
  run world_ok (request [q_example; q_other])
    = run world_ok (request [q_example]).
Proof.
  do 4 (split; [reflexivity|]).
  apply (later_questions_ignored world_ok world_write_fails
           (request [q_example; q_other]) (request [q_example]) q_example);
    reflexivity.
Defined.

(** ** Determinism *)

(** C7: the replies a run writes, and whether it returns, are fixed by the
    inbound message and by what the engine answers to its first question:
    two dispatches of the same message against engines that give that call
    the same outcome write equal replies, whatever else differs between the
    two runs (the transport's verdict on the write included). *)
Theorem handler_deterministic w1 w2 r :
  (∀ q, dns.Question r !! 0 = Some q →
        resolver_Query w1 (dns.Name q) (dns.Qtype q)
        = resolver_Query w2 (dns.Name q) (dns.Qtype q)) →
  (run w1 r).1 = (run w2 r).1 ∧
  written (run w1 r).2 = written (run w2 r).2.
Proof.
  intros Hres.
  destruct (run_written w1 r) as [-> ->], (run_written w2 r) as [-> ->].
  split; [reflexivity|]. f_equal.
  apply reply_for_ext; [reflexivity|reflexivity|exact Hres].
Qed.

Lemma handler_deterministic_witness :
  (∀ q, dns.Question (request [q_example; q_other]) !! 0 = Some q →
        resolver_Query world_ok (dns.Name q) (dns.Qtype q)
        = resolver_Query world_write_fails (dns.Name q) (dns.Qtype q)) ∧
  (run world_ok (request [q_example; q_other])).1
    = (run world_write_fails (request [q_example; q_other])).1 ∧
  written (run world_ok (request [q_example; q_other])).2
    = written (run world_write_fails (request [q_example; q_other])).2.
Proof.
  split; [intros q _; reflexivity|].
  apply (handler_deterministic world_ok world_write_fails
           (request [q_example; q_other])).
  intros q _. reflexivity.
Defined.

(** ** A failed write *)

(** Whatever the transport answers, the handler returns and has attempted
    exactly one write. *)
Lemma single_write_attempt w r :
  (run w r).1 = Returned () ∧ length (written (run w r).2) = 1.
Proof. destruct (run_written w r) as [-> ->]. split; reflexivity. Qed.

(** On the success path a failed write is logged (main.go:91-93). *)
Lemma write_failure_logged_on_success w r q response e :
  dns.Question r !! 0 = Some q →
  resolver_Query w (dns.Name q) (dns.Qtype q) = (response, None) →
  w_WriteMsg w (reply_for w r) = Some e →
  write_failures_logged (run w r).2 = [e].
Proof.
  intros Hq Hres Hw. unfold reply_for in Hw. rewrite Hq, Hres in Hw.
  rewrite (run_engine_success w r q response Hq Hres). cbn.
  rewrite Hw. reflexivity.
Qed.

(** C9 fails on the two early-return paths: the result of the write at
    main.go:45 (no question) and at main.go:74 (engine error) is discarded,
    so a failed write leaves no log line.  The handler still returns after a
    single write attempt. *)
Theorem write_failure_unlogged_on_early_returns :
  w_WriteMsg (world_error_write_fails ErrNoData)
      (reply_for (world_error_write_fails ErrNoData) (request []))
    = Some (errors_New "write: connection closed") ∧
  run (world_error_write_fails ErrNoData) (request [])
    = (Returned (),
       [Call_WriteMsg (reply_for (world_error_write_fails ErrNoData) (request []))]) ∧
  write_failures_logged
    (run (world_error_write_fails ErrNoData) (request [])).2 = [] ∧
  run (world_error_write_fails ErrNoData) (request [q_example])
    = (Returned (),
       [Log_request "example.test." 1;
        Call_Query "example.test." 1;
        Log_resolve_error "example.test." ErrNoData;
        Call_WriteMsg
          (reply_for (world_error_write_fails ErrNoData) (request [q_example]))]) ∧
  write_failures_logged
    (run (world_error_write_fails ErrNoData) (request [q_example])).2 = [].
Proof. repeat split; reflexivity. Qed.

(** * Properties of the lifecycle *)

Lemma ListenAndServe_Net bind srv :
  dns.Net (dns.ListenAndServe bind srv).1 = dns.Net srv.
Proof.
  unfold dns.ListenAndServe.
  destruct (dns.started srv); [reflexivity|].
  case_decide; [destruct bind|]; reflexivity.
Qed.

Lemma Start_s_server addr p0 :
  s_server (Start addr p0).2 = Some (fresh (dom (heap p0))).
Proof. reflexivity. Qed.

Lemma Start_listeners addr p0 :
  ∃ udp tcp, listeners_live udp tcp (Start addr p0).2.
Proof.
  set (udp := fresh (dom (heap p0))).
  set (h1 := <[udp := dns.mkServer addr "udp" ["."] 65535 false]> (heap p0)).
  set (tcp := fresh (dom h1)).
  assert (udp ≠ tcp) as Hne.
  { intros E. apply (is_fresh (dom h1)). fold tcp. rewrite <- E.
    unfold h1. rewrite dom_insert_L. set_solver. }
  exists udp, tcp. unfold listeners_live, Start; cbn. fold udp h1 tcp.
  split; [reflexivity|]. split; [exact Hne|]. split.
  - exists (dns.mkServer addr "udp" ["."] 65535 false).
    split; [|reflexivity].
    rewrite lookup_insert_ne by congruence. unfold h1. apply lookup_insert_eq.
  - exists (dns.mkServer addr "tcp" ["."] 0 false).
    split; [apply lookup_insert_eq|reflexivity].
Qed.

(** What one scheduling step can change: nothing, or the state of the one
    server whose [ListenAndServe] ran. *)
Lemma go_step_effect i bind p p' :
  go_step i bind p = Some p' →
  s_server p' = s_server p ∧
  shutdowns (calls p') = shutdowns (calls p) ∧
  (heap p' = heap p ∨
   ∃ l srv, heap p !! l = Some srv ∧
            heap p' = <[l := (dns.ListenAndServe bind srv).1]> (heap p)).
Proof.
  unfold go_step. destruct (goroutines p !! i) as [g|]; cbn.
  - destruct g as [|l0]; cbn.
    + destruct (s_server p) as [l|] eqn:Hs; cbn; [|discriminate].
      destruct (heap p !! l) as [srv|] eqn:Hl; cbn; [|discriminate].
      destruct (dns.ListenAndServe bind srv) as [srv' [e|]] eqn:E;
        intros [= <-]; cbn;
        (split; [reflexivity|]); unfold shutdowns;
        rewrite ?omap_app; cbn; rewrite ?app_nil_r;
        (split; [reflexivity|]); right; exists l, srv; rewrite E; auto.
    + destruct (heap p !! l0) as [srv|] eqn:Hl; cbn; [|discriminate].
      destruct (dns.ListenAndServe bind srv) as [srv' [e|]] eqn:E;
        intros [= <-]; cbn;
        (split; [reflexivity|]); unfold shutdowns;
        rewrite ?omap_app; cbn; rewrite ?app_nil_r;
        (split; [reflexivity|]); right; exists l0, srv; rewrite E; auto.
  - intros [= <-]. auto.
Qed.

Lemma go_step_listeners udp tcp i bind p p' :
  listeners_live udp tcp p →
  go_step i bind p = Some p' →
  listeners_live udp tcp p'.
Proof.
  intros (Hs & Hne & (su & Hu & Nu) & (st & Ht & Nt)) Hstep.
  destruct (go_step_effect i bind p p' Hstep) as (Hs' & _ & [Hh | (l & srv & Hl & Hh)]).
  - unfold listeners_live. rewrite Hs', Hh. eauto 10.
  - unfold listeners_live. rewrite Hs', Hh.
    split; [exact Hs|]. split; [exact Hne|]. split.
    + destruct (decide (l = udp)) as [->|].
      * rewrite lookup_insert_eq. eexists; split; [reflexivity|].
        rewrite ListenAndServe_Net. congruence.
      * rewrite lookup_insert_ne by auto. eauto.
    + destruct (decide (l = tcp)) as [->|].
      * rewrite lookup_insert_eq. eexists; split; [reflexivity|].
        rewrite ListenAndServe_Net. congruence.
      * rewrite lookup_insert_ne by auto. eauto.
Qed.

Lemma run_schedule_listeners udp tcp sched : ∀ p p',
  listeners_live udp tcp p →
  run_schedule sched p = Some p' →
  listeners_live udp tcp p'.
Proof.
  induction sched as [|[i bind] sched IH]; intros p p' Hlive Hrun; cbn in Hrun.
  - injection Hrun as <-. exact Hlive.
  - destruct (go_step i bind p) as [p1|] eqn:Hstep; cbn in Hrun; [|discriminate].
    apply (IH p1 p'); [|exact Hrun].
    apply (go_step_listeners udp tcp i bind p p1 Hlive Hstep).
Qed.

Lemma Shutdown_started srv : dns.started (dns.Shutdown srv).1 = false.
Proof.
  unfold dns.Shutdown. destruct (dns.started srv) eqn:E; [reflexivity|exact E].
Qed.

(** [Stop] on a process whose [s.server] reaches a server. *)
Lemma Stop_effect p l srv :
  s_server p = Some l →
  heap p !! l = Some srv →
  Stop p =
    (Returned (dns.Shutdown srv).2,
     mkProcess (s_server p) (<[l := (dns.Shutdown srv).1]> (heap p))
               (goroutines p) (calls p ++ [Call_Shutdown l])).
Proof.
  intros Hs Hl. unfold Stop. rewrite Hs, Hl.
  destruct (dns.Shutdown srv) as [srv' e].
  unfold store, record. cbn. rewrite Hs. reflexivity.
Qed.

(** Before [Start], [Stop] does nothing and returns [nil]. *)
Lemma Stop_not_started p :
  s_server p = None → Stop p = (Returned None, p).
Proof. intros Hs. unfold Stop. rewrite Hs. reflexivity. Qed.

(** C8: after [Start] and any scheduling of the two listener goroutines,
    [Stop] issues one shutdown, to the packet listener held in [s.server],
    and returns the result of that shutdown; the packet listener is left not
    started, and the stream listener, like every other server, is left as it
    was. *)
Theorem Stop_shuts_down_packet_listener_only addr p0 sched p :
  run_schedule sched (Start addr p0).2 = Some p →
  ∃ udp tcp srv_udp srv_tcp,
    s_server p = Some udp ∧
    heap p !! udp = Some srv_udp ∧ dns.Net srv_udp = "udp" ∧
    heap p !! tcp = Some srv_tcp ∧ dns.Net srv_tcp = "tcp" ∧
    (Stop p).1 = Returned (dns.Shutdown srv_udp).2 ∧
    shutdowns (calls (Stop p).2) = shutdowns (calls p) ++ [udp] ∧
    heap (Stop p).2 !! udp = Some (dns.Shutdown srv_udp).1 ∧
    dns.started (dns.Shutdown srv_udp).1 = false ∧
    heap (Stop p).2 !! tcp = Some srv_tcp ∧
    (∀ l, l ≠ udp → heap (Stop p).2 !! l = heap p !! l).
Proof.
  intros Hrun.
  destruct (Start_listeners addr p0) as (udp & tcp & Hlive).
  destruct (run_schedule_listeners udp tcp sched _ p Hlive Hrun)
    as (Hs & Hne & (su & Hu & Nu) & (st & Ht & Nt)).
  exists udp, tcp, su, st.
  rewrite (Stop_effect p udp su Hs Hu). cbn.
  split; [exact Hs|]. split; [exact Hu|]. split; [exact Nu|].
  split; [exact Ht|]. split; [exact Nt|]. split; [reflexivity|].
  split; [unfold shutdowns; rewrite omap_app; reflexivity|].
  split; [apply lookup_insert_eq|].
  split; [apply Shutdown_started|].
  split; [rewrite lookup_insert_ne by auto; exact Ht|].
  intros l Hl. rewrite lookup_insert_ne by auto. reflexivity.
Qed.

Lemma Stop_shuts_down_packet_listener_only_witness :
  run_schedule [(0, None); (0, None)] (Start ":5053" initial_process).2
    = Some process_serving ∧
  ∃ udp tcp srv_udp srv_tcp,
    s_server process_serving = Some udp ∧
    heap process_serving !! udp = Some srv_udp ∧ dns.Net srv_udp = "udp" ∧
    heap process_serving !! tcp = Some srv_tcp ∧ dns.Net srv_tcp = "tcp" ∧
    (Stop process_serving).1 = Returned (dns.Shutdown srv_udp).2 ∧
    shutdowns (calls (Stop process_serving).2)
      = shutdowns (calls process_serving) ++ [udp] ∧
    heap (Stop process_serving).2 !! udp = Some (dns.Shutdown srv_udp).1 ∧
    dns.started (dns.Shutdown srv_udp).1 = false ∧
    heap (Stop process_serving).2 !! tcp = Some srv_tcp ∧
    (∀ l, l ≠ udp → heap (Stop process_serving).2 !! l = heap process_serving !! l).
Proof.
  split; [vm_compute; reflexivity|].
  apply (Stop_shuts_down_packet_listener_only ":5053" initial_process
           [(0, None); (0, None)] process_serving).
  vm_compute; reflexivity.
Defined.

(** ** The schedules never crash *)

Lemma goroutine_valid_mono p p' g :
  s_server p' = s_server p →
  (∀ l, is_Some (heap p !! l) → is_Some (heap p' !! l)) →
  goroutine_valid p g → goroutine_valid p' g.
Proof.
  intros Hs Hh. destruct g as [|l]; cbn.
  - intros (l & Hl & Hsome). exists l. rewrite Hs. auto.
  - apply Hh.
Qed.

Lemma go_step_total i bind p :
  Forall (goroutine_valid p) (goroutines p) →
  ∃ p', go_step i bind p = Some p' ∧
        Forall (goroutine_valid p') (goroutines p').
Proof.
  intros Hvalid. unfold go_step.
  destruct (goroutines p !! i) as [g|] eqn:Hg; [|eauto].
  assert (goroutine_valid p g) as Hgv
    by (eapply Forall_lookup_1; eassumption).
  assert (∃ l srv,
            match g with
            | Go_server_ListenAndServe => s_server p
            | Go_tcpServer_ListenAndServe l => Some l
            end = Some l ∧ heap p !! l = Some srv) as (l & srv & Hl & Hsrv).
  { destruct g as [|l]; cbn in Hgv.
    - destruct Hgv as (l & Hs & [srv Hsrv]). eauto.
    - destruct Hgv as [srv Hsrv]. eauto. }
  cbn. rewrite Hl. cbn. rewrite Hsrv. cbn.
  destruct (dns.ListenAndServe bind srv) as [srv' err].
  eexists. split; [reflexivity|].
  assert (Forall (goroutine_valid
            (mkProcess (s_server p) (<[l:=srv']> (heap p))
                       (delete i (goroutines p)) (calls p)))
            (delete i (goroutines p))) as Hdel.
  { apply Forall_delete. eapply Forall_impl; [exact Hvalid|].
    intros g'. apply goroutine_valid_mono; [reflexivity|].
    intros l' Hl'. cbn. apply lookup_insert_is_Some'. auto. }
  destruct err as [e|], g as [|l0]; cbn;
    (eapply Forall_impl; [exact Hdel|]);
    intros g'; apply goroutine_valid_mono; cbn; auto.
Qed.

Lemma run_schedule_total sched : ∀ p,
  Forall (goroutine_valid p) (goroutines p) →
  is_Some (run_schedule sched p).
Proof.
  induction sched as [|[i bind] sched IH]; intros p Hvalid; cbn; [eauto|].
  destruct (go_step_total i bind p Hvalid) as (p' & -> & Hvalid'). cbn.
  apply IH, Hvalid'.
Qed.

Lemma Start_goroutines_valid addr p0 :
  Forall (goroutine_valid p0) (goroutines p0) →
  Forall (goroutine_valid (Start addr p0).2) (goroutines (Start addr p0).2).
Proof.
  intros Hvalid. unfold Start; cbn.
  set (udp := fresh (dom (heap p0))).
  set (h1 := <[udp := dns.mkServer addr "udp" ["."] 65535 false]> (heap p0)).
  set (tcp := fresh (dom h1)).
  assert (h1 !! udp = Some (dns.mkServer addr "udp" ["."] 65535 false)) as Hudp
    by apply lookup_insert_eq.
  rewrite !Forall_app, !Forall_singleton. repeat split.
  - eapply Forall_impl; [exact Hvalid|]. intros [|l]; cbn.
    + intros _. exists udp. split; [reflexivity|].
      apply lookup_insert_is_Some'. right. rewrite Hudp. eauto.
    + intros Hl. apply lookup_insert_is_Some'. right.
      apply lookup_insert_is_Some'. auto.
  - cbn. exists udp. split; [reflexivity|].
    apply lookup_insert_is_Some'. right. rewrite Hudp. eauto.
  - cbn. rewrite lookup_insert_eq. eauto.
Qed.

(** From the process that [main] builds, every schedule of the goroutines
    reaches a process on which [Stop] can be called. *)
Lemma main_schedule_total addr sched :
  is_Some (run_schedule sched (Start addr initial_process).2).
Proof.
  apply run_schedule_total, Start_goroutines_valid. constructor.
Qed.

(** * Further properties of the dispatcher *)

(** X1: whatever the inbound message, the engine and the transport do, the
    handler returns without a panic after exactly one write, and it has called
    the engine for the first question of the message and for nothing else
    (not at all when there is no question). *)
Theorem handler_returns_after_one_write w r :
  (run w r).1 = Returned () ∧
  length (written (run w r).2) = 1 ∧
  queried (run w r).2
    = (λ q, (dns.Name q, dns.Qtype q)) <$> take 1 (dns.Question r).
Proof.
  destruct (run_written w r) as [Hret Hw].
  split; [exact Hret|]. split; [rewrite Hw; reflexivity|].
  destruct (dns.Question r) as [|q qs] eqn:HQ.
  - rewrite (run_no_question w r HQ). reflexivity.
  - apply run_queried. rewrite HQ. reflexivity.
Qed.

(** X2: when the engine returns an error, whatever answer it returned along
    with it is discarded: two engines that fail with the same error make the
    handler write the same reply. *)
Theorem engine_error_discards_answer w1 w2 r q response1 response2 err :
  dns.Question r !! 0 = Some q →
  resolver_Query w1 (dns.Name q) (dns.Qtype q) = (response1, Some err) →
  resolver_Query w2 (dns.Name q) (dns.Qtype q) = (response2, Some err) →
  written (run w1 r).2 = written (run w2 r).2.
Proof.
  intros Hq H1 H2.
  rewrite (run_engine_error w1 r q response1 err Hq H1),
          (run_engine_error w2 r q response2 err Hq H2).
  reflexivity.
Qed.

Lemma engine_error_discards_answer_witness :
  dns.Question (request [q_example]) !! 0 = Some q_example ∧
  resolver_Query (mkWorld (λ _ _, (Some response_example, Some ErrNoData)) (λ _, None))
    (dns.Name q_example) (dns.Qtype q_example)
    = (Some response_example, Some ErrNoData) ∧
  resolver_Query (world_error_write_fails ErrNoData)
    (dns.Name q_example) (dns.Qtype q_example) = (None, Some ErrNoData) ∧
  written (run (mkWorld (λ _ _, (Some response_example, Some ErrNoData)) (λ _, None))
               (request [q_example])).2
    = written (run (world_error_write_fails ErrNoData) (request [q_example])).2.
Proof.
  do 3 (split; [reflexivity|]).
  apply (engine_error_discards_answer _ _ (request [q_example]) q_example
           (Some response_example) None ErrNoData); reflexivity.
Defined.

Lemma reply_for_header_bits w r :
  dns.Response (dns.MsgHdr (reply_for w r)) = true ∧
  dns.Opcode (dns.MsgHdr (reply_for w r)) = dns.Opcode (dns.MsgHdr r) ∧
  dns.Authoritative (dns.MsgHdr (reply_for w r)) = false ∧
  dns.Truncated (dns.MsgHdr (reply_for w r)) = false ∧
  dns.Zero (dns.MsgHdr (reply_for w r)) = false.
Proof.
  unfold reply_for.
  destruct (dns.Question r !! 0) as [q|];
    [destruct (resolver_Query w _ _) as [[resp|] [e|]]|];
    repeat split; msg_crush.
Qed.

(** X3: the reply written is always a response with the opcode of the
    inbound message, and it never carries the authoritative-answer, truncated
    or reserved bit, whatever the header of the engine's answer says. *)
Theorem reply_header_bits w r :
  ∃ reply,
    written (run w r).2 = [reply] ∧
    dns.Response (dns.MsgHdr reply) = true ∧
    dns.Opcode (dns.MsgHdr reply) = dns.Opcode (dns.MsgHdr r) ∧
    dns.Authoritative (dns.MsgHdr reply) = false ∧
    dns.Truncated (dns.MsgHdr reply) = false ∧
    dns.Zero (dns.MsgHdr reply) = false.
Proof.
  exists (reply_for w r). split; [apply run_written|apply reply_for_header_bits].
Qed.

Lemma reply_for_RecursionDesired w r :
  dns.Opcode (dns.MsgHdr r) = dns.OpcodeQuery →
  dns.RecursionDesired (dns.MsgHdr (reply_for w r))
    = dns.RecursionDesired (dns.MsgHdr r).
Proof.
  intros Hop. unfold reply_for.
  destruct (dns.Question r !! 0) as [q|];
    [destruct (resolver_Query w _ _) as [[resp|] [e|]]|];
    unfold_msg; repeat case_decide;
    repeat match goal with
           | |- context [match dns.Question ?r with _ => _ end] =>
               destruct (dns.Question r)
           | H : dns.Opcode _ ≠ dns.OpcodeQuery |- _ => exfalso; apply H; exact Hop
           end; reflexivity.
Qed.

(** X4: for an inbound message with the standard query opcode, the reply
    echoes its recursion-desired bit, on every path. *)
Theorem reply_echoes_recursion_desired w r :
  dns.Opcode (dns.MsgHdr r) = dns.OpcodeQuery →
  ∃ reply,
    written (run w r).2 = [reply] ∧
    dns.RecursionDesired (dns.MsgHdr reply)
      = dns.RecursionDesired (dns.MsgHdr r).
Proof.
  intros Hop. exists (reply_for w r).
  split; [apply run_written|apply reply_for_RecursionDesired, Hop].
Qed.

Lemma reply_echoes_recursion_desired_witness :
  dns.Opcode (dns.MsgHdr (request [q_example; q_other])) = dns.OpcodeQuery ∧
  ∃ reply,
    written (run world_ok (request [q_example; q_other])).2 = [reply] ∧
    dns.RecursionDesired (dns.MsgHdr reply)
      = dns.RecursionDesired (dns.MsgHdr (request [q_example; q_other])).
Proof.
  split; [reflexivity|].
  apply (reply_echoes_recursion_desired world_ok (request [q_example; q_other])).
  reflexivity.
Defined.

Lemma failure_reply_not_authenticated m r rc :
  dns.AuthenticatedData (dns.MsgHdr (dns.SetRcode m r rc))
    = dns.AuthenticatedData (dns.MsgHdr m).
Proof. msg_crush. Qed.

Lemma initial_reply_not_authenticated r :
  dns.AuthenticatedData (dns.MsgHdr (initial_reply r)) = false.
Proof. msg_crush. Qed.

(** X5: the reply asserts authenticated data only when the engine returned
    an answer without an error and that answer asserts it; format-error and
    failure replies, and the reply to an absent answer, never do. *)
Theorem authenticated_data_only_from_engine w r reply :
  written (run w r).2 = [reply] →
  dns.AuthenticatedData (dns.MsgHdr reply) = true →
  ∃ q response,
    dns.Question r !! 0 = Some q ∧
    resolver_Query w (dns.Name q) (dns.Qtype q) = (Some response, None) ∧
    dns.AuthenticatedData (dns.MsgHdr response) = true.
Proof.
  intros Hw Had.
  destruct (run_written w r) as [_ Hw']. rewrite Hw' in Hw.
  injection Hw as <-. unfold reply_for in Had.
  destruct (dns.Question r !! 0) as [q|] eqn:Hq.
  - destruct (resolver_Query w (dns.Name q) (dns.Qtype q))
      as [[resp|] [e|]] eqn:Hres.
    + rewrite failure_reply_not_authenticated,
        initial_reply_not_authenticated in Had. discriminate.
    + exists q, resp. split; [reflexivity|]. split; [exact Hres|]. exact Had.
    + rewrite failure_reply_not_authenticated,
        initial_reply_not_authenticated in Had. discriminate.
    + unfold copy_response in Had.
      rewrite initial_reply_not_authenticated in Had. discriminate.
  - rewrite failure_reply_not_authenticated,
      initial_reply_not_authenticated in Had. discriminate.
Qed.

Lemma authenticated_data_only_from_engine_witness :
  written (run world_ok (request [q_example])).2
    = [reply_for world_ok (request [q_example])] ∧
  dns.AuthenticatedData
    (dns.MsgHdr (reply_for world_ok (request [q_example]))) = true ∧
  ∃ q response,
    dns.Question (request [q_example]) !! 0 = Some q ∧
    resolver_Query world_ok (dns.Name q) (dns.Qtype q) = (Some response, None) ∧
    dns.AuthenticatedData (dns.MsgHdr response) = true.
Proof.
  do 2 (split; [reflexivity|]).
  apply (authenticated_data_only_from_engine world_ok (request [q_example])
           (reply_for world_ok (request [q_example]))); reflexivity.
Defined.

(** X6: on the success path, when the transport refuses the reply, the
    handler logs that error once, as the last thing it does, and returns; it
    has made a single write. *)
Theorem write_failure_logged_after_success w r q response e :
  dns.Question r !! 0 = Some q →
  resolver_Query w (dns.Name q) (dns.Qtype q) = (response, None) →
  w_WriteMsg w (reply_for w r) = Some e →
  (run w r).1 = Returned () ∧
  written (run w r).2 = [reply_for w r] ∧
  write_failures_logged (run w r).2 = [e] ∧
  last (run w r).2 = Some (Log_write_error e).
Proof.
  intros Hq Hres Hw.
  split; [apply run_written|]. split; [apply run_written|].
  unfold reply_for in Hw. rewrite Hq, Hres in Hw.
  rewrite (run_engine_success w r q response Hq Hres).
  rewrite Hw. split; reflexivity.
Qed.

Lemma write_failure_logged_after_success_witness :
  dns.Question (request [q_example]) !! 0 = Some q_example ∧
  resolver_Query world_write_fails (dns.Name q_example) (dns.Qtype q_example)
    = (Some response_example, None) ∧
  w_WriteMsg world_write_fails (reply_for world_write_fails (request [q_example]))
    = Some (errors_New "write: connection closed") ∧
  (run world_write_fails (request [q_example])).1 = Returned () ∧
  written (run world_write_fails (request [q_example])).2
    = [reply_for world_write_fails (request [q_example])] ∧
  write_failures_logged (run world_write_fails (request [q_example])).2
    = [errors_New "write: connection closed"] ∧
  last (run world_write_fails (request [q_example])).2
    = Some (Log_write_error (errors_New "write: connection closed")).
Proof.
  do 3 (split; [reflexivity|]).
  apply (write_failure_logged_after_success world_write_fails
           (request [q_example]) q_example (Some response_example));
    reflexivity.
Defined.

(** X7: a transmission failure is never logged spuriously: a logged failure
    is the error the transport returned for the reply, and the run is one
    where the engine returned no error. *)
Theorem write_failure_log_only_after_failed_write w r e :
  e ∈ write_failures_logged (run w r).2 →
  w_WriteMsg w (reply_for w r) = Some e ∧
  ∃ q response,
    dns.Question r !! 0 = Some q ∧
    resolver_Query w (dns.Name q) (dns.Qtype q) = (response, None).
Proof.
  unfold reply_for.
  destruct (dns.Question r !! 0) as [q|] eqn:Hq.
  - destruct (resolver_Query w (dns.Name q) (dns.Qtype q))
      as [resp [err|]] eqn:Hres.
    + rewrite (run_engine_error w r q resp err Hq Hres). cbn.
      intros H. apply elem_of_nil in H. destruct H.
    + rewrite (run_engine_success w r q resp Hq Hres).
      destruct (w_WriteMsg w (copy_response resp (initial_reply r)))
        as [e'|] eqn:Hw; cbn; intros H.
      * apply list_elem_of_singleton in H. subst e'. eauto.
      * apply elem_of_nil in H. destruct H.
  - assert (dns.Question r = []) as HQ
      by (destruct (dns.Question r); [reflexivity|discriminate]).
    rewrite (run_no_question w r HQ). cbn.
    intros H. apply elem_of_nil in H. destruct H.
Qed.

Lemma write_failure_log_only_after_failed_write_witness :
  errors_New "write: connection closed"
    ∈ write_failures_logged (run world_write_fails (request [q_example])).2 ∧
  w_WriteMsg world_write_fails (reply_for world_write_fails (request [q_example]))
    = Some (errors_New "write: connection closed") ∧
  ∃ q response,
    dns.Question (request [q_example]) !! 0 = Some q ∧
    resolver_Query world_write_fails (dns.Name q) (dns.Qtype q) = (response, None).
Proof.
  split; [apply list_elem_of_singleton; reflexivity|].
  apply (write_failure_log_only_after_failed_write world_write_fails
           (request [q_example])).
  apply list_elem_of_singleton. reflexivity.
Defined.


(** X9: an engine error is logged exactly once, with the queried name, after
    the engine call and before the reply is written. *)
Theorem engine_error_logged_once w r q response err :
  dns.Question r !! 0 = Some q →
  resolver_Query w (dns.Name q) (dns.Qtype q) = (response, Some err) →
  resolve_errors_logged (run w r).2 = [(dns.Name q, err)] ∧
  ∃ reply,
    (run w r).2 = [Log_request (dns.Name q) (dns.Qtype q);
                   Call_Query (dns.Name q) (dns.Qtype q);
                   Log_resolve_error (dns.Name q) err;
                   Call_WriteMsg reply].
Proof.
  intros Hq Hres. rewrite (run_engine_error w r q response err Hq Hres).
  split; [reflexivity|]. eexists. reflexivity.
Qed.

Lemma engine_error_logged_once_witness :
  dns.Question (request [q_example; q_other]) !! 0 = Some q_example ∧
  resolver_Query (world_error_write_fails ErrInvalidQuery)
    (dns.Name q_example) (dns.Qtype q_example) = (None, Some ErrInvalidQuery) ∧
  resolve_errors_logged
    (run (world_error_write_fails ErrInvalidQuery)
         (request [q_example; q_other])).2
    = [(dns.Name q_example, ErrInvalidQuery)] ∧
  ∃ reply,
    (run (world_error_write_fails ErrInvalidQuery)
         (request [q_example; q_other])).2
    = [Log_request (dns.Name q_example) (dns.Qtype q_example);
       Call_Query (dns.Name q_example) (dns.Qtype q_example);
       Log_resolve_error (dns.Name q_example) ErrInvalidQuery;
       Call_WriteMsg reply].
Proof.
  do 2 (split; [reflexivity|]).
  apply (engine_error_logged_once (world_error_write_fails ErrInvalidQuery)
           (request [q_example; q_other]) q_example None ErrInvalidQuery);
    reflexivity.
Defined.

(** * Further properties of the lifecycle *)

Lemma Start_result addr p0 :
  let udp := fresh (dom (heap p0)) in
  let h1 := <[udp := dns.mkServer addr "udp" ["."] 65535 false]> (heap p0) in
  let tcp := fresh (dom h1) in
  Start addr p0 =
    (None,
     mkProcess (Some udp)
       (<[tcp := dns.mkServer addr "tcp" ["."] 0 false]> h1)
       ((goroutines p0 ++ [Go_server_ListenAndServe])
          ++ [Go_tcpServer_ListenAndServe tcp])
       (calls p0 ++ [Log_start addr])).
Proof. reflexivity. Qed.

(** X10: [Start] never reports an error.  It allocates two new servers on the
    given address with the same route table, neither of them started: a
    packet listener with a 65535-byte buffer, stored in [s.server], and a
    stream listener; it launches one goroutine for each and leaves every
    server that already existed as it was. *)
Theorem Start_creates_listener_pair addr p0 :
  ∃ udp tcp,
    (udp ∉ dom (heap p0)) ∧ (tcp ∉ dom (heap p0)) ∧ udp ≠ tcp ∧
    Start addr p0 =
      (None,
       mkProcess (Some udp)
         (<[tcp := dns.mkServer addr "tcp" ["."] 0 false]>
            (<[udp := dns.mkServer addr "udp" ["."] 65535 false]> (heap p0)))
         (goroutines p0
            ++ [Go_server_ListenAndServe; Go_tcpServer_ListenAndServe tcp])
         (calls p0 ++ [Log_start addr])) ∧
    heap (Start addr p0).2 !! udp
      = Some (dns.mkServer addr "udp" ["."] 65535 false) ∧
    heap (Start addr p0).2 !! tcp
      = Some (dns.mkServer addr "tcp" ["."] 0 false) ∧
    (∀ l, l ∈ dom (heap p0) → heap (Start addr p0).2 !! l = heap p0 !! l).
Proof.
  set (udp := fresh (dom (heap p0))).
  set (h1 := <[udp := dns.mkServer addr "udp" ["."] 65535 false]> (heap p0)).
  set (tcp := fresh (dom h1)).
  assert (udp ∉ dom (heap p0)) as Hu by apply is_fresh.
  assert (tcp ∉ dom h1) as Ht by apply is_fresh.
  assert (dom h1 = {[udp]} ∪ dom (heap p0)) as Hdom
    by (unfold h1; apply dom_insert_L).
  assert (tcp ∉ dom (heap p0)) as Ht0
    by (intros H; apply Ht; rewrite Hdom; apply elem_of_union_r; exact H).
  assert (udp ≠ tcp) as Hne
    by (intros H; apply Ht; rewrite Hdom, <- H;
        apply elem_of_union_l, elem_of_singleton; reflexivity).
  exists udp, tcp.
  split; [exact Hu|]. split; [exact Ht0|]. split; [exact Hne|].
  rewrite Start_result. fold udp h1 tcp. cbn.
  split; [rewrite <- app_assoc; reflexivity|].
  split; [rewrite lookup_insert_ne by congruence; apply lookup_insert_eq|].
  split; [apply lookup_insert_eq|].
  intros l Hl.
  assert (udp ≠ l) as Hlu by (intros ->; contradiction).
  assert (tcp ≠ l) as Hlt by (intros ->; contradiction).
  rewrite lookup_insert_ne by exact Hlt. unfold h1.
  rewrite lookup_insert_ne by exact Hlu. reflexivity.
Qed.

Lemma Shutdown_not_started srv :
  dns.started srv = false →
  dns.Shutdown srv = (srv, Some (errors_New "dns: server not started")).
Proof. intros H. unfold dns.Shutdown. rewrite H. reflexivity. Qed.

(** X11: a second [Stop] finds the packet listener already shut down: it
    returns the codec's "server not started" error and changes no server. *)
Theorem Stop_twice p l srv :
  s_server p = Some l →
  heap p !! l = Some srv →
  (Stop (Stop p).2).1 = Returned (Some (errors_New "dns: server not started")) ∧
  heap (Stop (Stop p).2).2 = heap (Stop p).2.
Proof.
  intros Hs Hl. rewrite (Stop_effect p l srv Hs Hl). cbn.
  set (srv1 := (dns.Shutdown srv).1).
  set (p1 := mkProcess (s_server p) (<[l:=srv1]> (heap p)) (goroutines p)
                       (calls p ++ [Call_Shutdown l])).
  assert (heap p1 !! l = Some srv1) as Hl1 by apply lookup_insert_eq.
  rewrite (Stop_effect p1 l srv1 Hs Hl1).
  rewrite (Shutdown_not_started srv1 (Shutdown_started srv)). cbn.
  split; [reflexivity|]. apply insert_insert_eq.
Qed.

Lemma Stop_twice_witness :
  s_server process_serving = Some 0 ∧
  heap process_serving !! 0 = Some (dns.mkServer ":5053" "udp" ["."] 65535 true) ∧
  (Stop (Stop process_serving).2).1
    = Returned (Some (errors_New "dns: server not started")) ∧
  heap (Stop (Stop process_serving).2).2 = heap (Stop process_serving).2.
Proof.
  split; [reflexivity|]. split; [vm_compute; reflexivity|].
  apply (Stop_twice process_serving 0
           (dns.mkServer ":5053" "udp" ["."] 65535 true));
    [reflexivity|vm_compute; reflexivity].
Defined.

(** X12: [Stop] called before the packet goroutine has bound its listener
    returns the "server not started" error and changes no server; it does
    not cancel the goroutine, which still starts the listener when it runs
    afterwards. *)
Theorem Stop_before_listener_bound addr p0 :
  ∃ udp p',
    s_server (Start addr p0).2 = Some udp ∧
    (Stop (Start addr p0).2).1
      = Returned (Some (errors_New "dns: server not started")) ∧
    heap (Stop (Start addr p0).2).2 = heap (Start addr p0).2 ∧
    go_step (length (goroutines p0)) None (Stop (Start addr p0).2).2 = Some p' ∧
    is_started p' udp.
Proof.
  destruct (Start_creates_listener_pair addr p0)
    as (udp & tcp & _ & _ & _ & HS & Hlu & _ & _).
  set (srv := dns.mkServer addr "udp" ["."] 65535 false) in *.
  assert (s_server (Start addr p0).2 = Some udp) as Hs by (rewrite HS; reflexivity).
  assert (goroutines (Start addr p0).2
          = goroutines p0
              ++ [Go_server_ListenAndServe; Go_tcpServer_ListenAndServe tcp])
    as Hg by (rewrite HS; reflexivity).
  clear HS. revert Hlu Hs Hg. generalize ((Start addr p0).2).
  intros p Hlu Hs Hg. exists udp.
  rewrite (Stop_effect p udp srv Hs Hlu).
  rewrite (Shutdown_not_started srv eq_refl). cbn.
  rewrite (insert_id _ _ _ Hlu).
  eexists.
  split; [exact Hs|]. split; [reflexivity|]. split; [reflexivity|].
  unfold go_step. cbn. rewrite Hg.
  rewrite lookup_app_r by lia. rewrite Nat.sub_diag. cbn.
  rewrite Hs. cbn. rewrite Hlu. cbn.
  split; [reflexivity|].
  exists (dns.set_started true srv). cbn.
  split; [apply lookup_insert_eq|reflexivity].
Qed.




Lemma ListenAndServe_started bind srv :
  dns.started srv = true →
  (dns.ListenAndServe bind srv).1 = srv.
Proof. intros H. unfold dns.ListenAndServe. rewrite H. reflexivity. Qed.

Lemma go_step_started i bind p p' l :
  is_started p l →
  go_step i bind p = Some p' →
  is_started p' l.
Proof.
  intros (srv & Hl & Hst) Hstep.
  destruct (go_step_effect i bind p p' Hstep)
    as (_ & _ & [Hh | (l0 & srv0 & Hl0 & Hh)]); unfold is_started; rewrite Hh.
  - eauto.
  - destruct (decide (l0 = l)) as [->|Hne].
    + rewrite lookup_insert_eq. exists srv. split; [|exact Hst].
      assert (srv0 = srv) as -> by congruence.
      rewrite (ListenAndServe_started bind srv Hst). reflexivity.
    + rewrite lookup_insert_ne by exact Hne. eauto.
Qed.

(** X14: a listener that is started stays started whatever the goroutines do
    afterwards, with whatever answers from the transport: [ListenAndServe]
    refuses a started server and leaves it alone, so only a shutdown stops
    it. *)
Theorem started_listener_survives_schedule sched : ∀ p l,
  is_started p l →
  match run_schedule sched p with
  | Some p' => is_started p' l
  | None => True
  end.
Proof.
  induction sched as [|[i bind] sched IH]; intros p l Hst; cbn; [exact Hst|].
  destruct (go_step i bind p) as [p1|] eqn:Hstep; cbn; [|exact I].
  apply IH. apply (go_step_started i bind p p1 l Hst Hstep).
Qed.

Lemma started_listener_survives_schedule_witness :
  is_started process_stream_serving 1 ∧
  match run_schedule [(0, None); (0, Some (errors_New "bind: refused"))]
          process_stream_serving with
  | Some p' => is_started p' 1
  | None => True
  end.
Proof.
  assert (is_started process_stream_serving 1) as H
    by (exists (dns.mkServer ":5053" "tcp" ["."] 0 true);
        split; vm_compute; reflexivity).
  split; [exact H|].
  apply (started_listener_survives_schedule
           [(0, None); (0, Some (errors_New "bind: refused"))]
           process_stream_serving 1 H).
Defined.

Lemma run_schedule_valid sched : ∀ p,
  Forall (goroutine_valid p) (goroutines p) →
  ∃ p', run_schedule sched p = Some p' ∧
        Forall (goroutine_valid p') (goroutines p').
Proof.
  induction sched as [|[i bind] sched IH]; intros p Hvalid; cbn; [eauto|].
  destruct (go_step_total i bind p Hvalid) as (p1 & -> & Hvalid1). cbn.
  apply IH, Hvalid1.
Qed.

Lemma run_schedule_calls sched : ∀ p p',
  run_schedule sched p = Some p' →
  s_server p' = s_server p ∧ shutdowns (calls p') = shutdowns (calls p).
Proof.
  induction sched as [|[i bind] sched IH]; intros p p' Hrun; cbn in Hrun.
  - injection Hrun as <-. split; reflexivity.
  - destruct (go_step i bind p) as [p1|] eqn:Hstep; cbn in Hrun; [|discriminate].
    destruct (go_step_effect i bind p p1 Hstep) as (Hs & Hc & _).
    destruct (IH p1 p' Hrun) as [Hs' Hc']. split; congruence.
Qed.

Lemma Stop_goroutines_valid p l srv :
  s_server p = Some l →
  heap p !! l = Some srv →
  Forall (goroutine_valid p) (goroutines p) →
  Forall (goroutine_valid (Stop p).2) (goroutines (Stop p).2).
Proof.
  intros Hs Hl Hvalid. rewrite (Stop_effect p l srv Hs Hl). cbn.
  eapply Forall_impl; [exact Hvalid|]. intros g.
  apply goroutine_valid_mono; [reflexivity|]. cbn.
  intros l' Hl'. apply lookup_insert_is_Some'. auto.
Qed.

(** The run of [main] once the engine has been built: what happens at the
    signal and what is printed. *)
Lemma main_run s1 s2 :
  ∃ udp tcp p1 srv p2,
    run_schedule s1 (Start ":5053" initial_process).2 = Some p1 ∧
    listeners_live udp tcp p1 ∧
    heap p1 !! udp = Some srv ∧
    run_schedule s2 (Stop p1).2 = Some p2 ∧
    main None s1 s2 =
      (Exit_normal,
       [Println_init; Println_ready; Println_signal]
         ++ (if dns.started srv then []
             else [Printf_stop_error (errors_New "dns: server not started")])
         ++ [Sleep_100ms; Println_stopped],
       Some p2).
Proof.
  destruct (Start_listeners ":5053" initial_process) as (udp & tcp & Hlive0).
  assert (Forall (goroutine_valid (Start ":5053" initial_process).2)
            (goroutines (Start ":5053" initial_process).2)) as Hvalid0
    by (apply Start_goroutines_valid; constructor).
  destruct (run_schedule_valid s1 _ Hvalid0) as (p1 & Hrun1 & Hvalid1).
  pose proof (run_schedule_listeners udp tcp s1 _ p1 Hlive0 Hrun1) as Hlive1.
  destruct Hlive1 as (Hs & Hne & (srv & Hu & Nu) & Htcp).
  pose proof (Stop_goroutines_valid p1 udp srv Hs Hu Hvalid1) as Hvalid2.
  destruct (run_schedule_valid s2 _ Hvalid2) as (p2 & Hrun2 & _).
  exists udp, tcp, p1, srv, p2.
  split; [exact Hrun1|]. split; [repeat split; eauto|].
  split; [exact Hu|]. split; [exact Hrun2|].
  unfold main, NewDNSServer.
  change (Start ":5053" initial_process)
    with (@None error, (Start ":5053" initial_process).2).
  cbv beta iota. rewrite Hrun1.
  rewrite (Stop_effect p1 udp srv Hs Hu) in Hrun2 |- *.
  unfold dns.Shutdown in Hrun2 |- *.
  destruct (dns.started srv); cbn [fst snd] in Hrun2 |- *;
    cbv beta iota zeta; rewrite Hrun2; reflexivity.
Qed.

(** X15: [main] exits fatally, before any listener is created, exactly when
    the engine cannot be built; otherwise, whatever the goroutines and the
    transports do before the signal and during the grace period, it runs to
    its end and returns normally ([Start] never fails it and nothing
    panics). *)
Theorem main_exits new_resolver s1 s2 :
  match new_resolver with
  | Some err =>
      main new_resolver s1 s2
        = (Exit_fatal, [Println_init; Fatalf_create err], None)
  | None =>
      ∃ out p,
        main new_resolver s1 s2 = (Exit_normal, out, Some p) ∧
        last out = Some Println_stopped
  end.
Proof.
  destruct new_resolver as [err|]; [reflexivity|].
  destruct (main_run s1 s2) as (udp & tcp & p1 & srv & p2 & _ & _ & _ & _ & ->).
  eexists _, p2. split; [reflexivity|].
  destruct (dns.started srv); reflexivity.
Qed.

Lemma Stop_listeners udp tcp p :
  listeners_live udp tcp p →
  listeners_live udp tcp (Stop p).2.
Proof.
  intros (Hs & Hne & (su & Hu & Nu) & (st & Ht & Nt)).
  rewrite (Stop_effect p udp su Hs Hu). unfold listeners_live. cbn.
  split; [exact Hs|]. split; [exact Hne|]. split.
  - rewrite lookup_insert_eq. eexists. split; [reflexivity|].
    unfold dns.Shutdown. destruct (dns.started su); exact Nu.
  - rewrite lookup_insert_ne by exact Hne. eauto.
Qed.

(** X16: a run of [main] that gets past the construction of the engine
    issues exactly one shutdown over its whole life, to the packet listener
    held in [s.server]; no shutdown is ever issued to the stream listener. *)
Theorem main_shuts_down_packet_listener_once s1 s2 :
  ∃ out p udp srv,
    main None s1 s2 = (Exit_normal, out, Some p) ∧
    s_server p = Some udp ∧
    heap p !! udp = Some srv ∧
    dns.Net srv = "udp" ∧
    shutdowns (calls p) = [udp].
Proof.
  destruct (main_run s1 s2)
    as (udp & tcp & p1 & srv & p2 & Hrun1 & Hlive1 & Hu & Hrun2 & ->).
  pose proof (run_schedule_listeners udp tcp s2 _ p2
                (Stop_listeners udp tcp p1 Hlive1) Hrun2)
    as (Hs2 & _ & (srv2 & Hu2 & Nu2) & _).
  eexists _, p2, udp, srv2.
  split; [reflexivity|]. split; [exact Hs2|]. split; [exact Hu2|].
  split; [exact Nu2|].
  destruct (run_schedule_calls s2 _ p2 Hrun2) as [_ ->].
  destruct Hlive1 as (Hs1 & _).
  rewrite (Stop_effect p1 udp srv Hs1 Hu). cbn [snd calls].
  destruct (run_schedule_calls s1 _ p1 Hrun1) as [_ Hc1].
  unfold shutdowns in *. rewrite omap_app, Hc1. reflexivity.
Qed.

(** X17: [main] never stops the stream listener: if it is serving when the
    signal arrives, it is still started when [main] returns. *)
Theorem main_leaves_stream_listener_running s1 s2 p1 l srv :
  run_schedule s1 (Start ":5053" initial_process).2 = Some p1 →
  heap p1 !! l = Some srv →
  dns.Net srv = "tcp" →
  dns.started srv = true →
  ∃ out p,
    main None s1 s2 = (Exit_normal, out, Some p) ∧
    is_started p l.
Proof.
  intros Hrun Hl Hnet Hst.
  destruct (main_run s1 s2)
    as (udp & tcp & p1' & su & p2 & Hrun1 & Hlive1 & Hu & Hrun2 & ->).
  assert (p1' = p1) as -> by congruence.
  destruct Hlive1 as (Hs1 & _ & (su' & Hu' & Nu) & _).
  assert (su' = su) as -> by congruence.
  assert (udp ≠ l) as Hne.
  { intros ->. assert (su = srv) as -> by congruence.
    rewrite Nu in Hnet. discriminate. }
  eexists _, p2. split; [reflexivity|].
  assert (is_started (Stop p1).2 l) as Hst1.
  { rewrite (Stop_effect p1 udp su Hs1 Hu). exists srv. cbn.
    split; [rewrite lookup_insert_ne by exact Hne; exact Hl|exact Hst]. }
  pose proof (started_listener_survives_schedule s2 _ l Hst1) as H.
  rewrite Hrun2 in H. exact H.
Qed.

Lemma main_leaves_stream_listener_running_witness :
  run_schedule [(1, None)] (Start ":5053" initial_process).2
    = Some process_stream_serving ∧
  heap process_stream_serving !! 1
    = Some (dns.mkServer ":5053" "tcp" ["."] 0 true) ∧
  dns.Net (dns.mkServer ":5053" "tcp" ["."] 0 true) = "tcp" ∧
  dns.started (dns.mkServer ":5053" "tcp" ["."] 0 true) = true ∧
  ∃ out p,
    main None [(1, None)] [(0, None)] = (Exit_normal, out, Some p) ∧
    is_started p 1.
Proof.
  split; [vm_compute; reflexivity|]. split; [vm_compute; reflexivity|].
  split; [reflexivity|]. split; [reflexivity|].
  apply (main_leaves_stream_listener_running [(1, None)] [(0, None)]
           process_stream_serving 1
           (dns.mkServer ":5053" "tcp" ["."] 0 true));
    [vm_compute; reflexivity|vm_compute; reflexivity|reflexivity|reflexivity].
Defined.

(** X18: what [main] prints is fixed by one fact, whether the packet
    listener is started when the signal arrives: if it is, [Stop] succeeds
    and nothing is reported; if it is not (its goroutine has not run, or
    could not bind), the "server not started" error of [Stop] is printed;
    either way [main] sleeps and prints its last line. *)
Theorem main_reports_stop_error s1 s2 p1 udp srv :
  run_schedule s1 (Start ":5053" initial_process).2 = Some p1 →
  s_server p1 = Some udp →
  heap p1 !! udp = Some srv →
  ∃ p,
    main None s1 s2 =
      (Exit_normal,
       [Println_init; Println_ready; Println_signal]
         ++ (if dns.started srv then []
             else [Printf_stop_error (errors_New "dns: server not started")])
         ++ [Sleep_100ms; Println_stopped],
       Some p).
Proof.
  intros Hrun Hs Hu.
  destruct (main_run s1 s2)
    as (udp' & tcp & p1' & srv' & p2 & Hrun1 & Hlive1 & Hu' & Hrun2 & ->).
  assert (p1' = p1) as -> by congruence.
  destruct Hlive1 as (Hs1 & _).
  assert (udp' = udp) as -> by congruence.
  assert (srv' = srv) as -> by congruence.
  exists p2. reflexivity.
Qed.

Lemma main_reports_stop_error_witness :
  run_schedule [(1, None)] (Start ":5053" initial_process).2
    = Some process_stream_serving ∧
  s_server process_stream_serving = Some 0 ∧
  heap process_stream_serving !! 0
    = Some (dns.mkServer ":5053" "udp" ["."] 65535 false) ∧
  ∃ p,
    main None [(1, None)] [(0, None)] =
      (Exit_normal,
       [Println_init; Println_ready; Println_signal;
        Printf_stop_error (errors_New "dns: server not started");
        Sleep_100ms; Println_stopped],
       Some p).
Proof.
  split; [vm_compute; reflexivity|]. split; [reflexivity|].
  split; [vm_compute; reflexivity|].
  apply (main_reports_stop_error [(1, None)] [(0, None)]
           process_stream_serving 0
           (dns.mkServer ":5053" "udp" ["."] 65535 false));
    [vm_compute; reflexivity|reflexivity|vm_compute; reflexivity].
Defined.
